(** * generate_charging_report.py: price matching, aggregation and cache

    A shallow embedding of [generate_charging_report.py] and the properties
    of its price-matching and aggregation engine.

    Modelling conventions.
    - A pandas [DataFrame] is the list of its rows, in index order; a column
      operation is a [map] over the rows, boolean indexing is a selection by
      a list of booleans.
    - Python floats are exact rationals ([Q]); numeric results are compared
      with [==].  Sums, products, means and roundings are the exact ones,
      where the program computes each of them in binary floating point: the
      statements below say which values are added, multiplied and rounded,
      and in which order, not how far a float result lies from the exact
      one.  Missing numbers (NaN) are outside the data model.
    - A pandas [Timestamp] and a [datetime] are integers, a count of
      microseconds; [timedelta(hours=1)] is [3600 * 10^6].
    - Python [None] is [None]; a value that may be [None] has an [option] type.
    - A Python [str] is a [string] whose characters are the code points below
      256.
    - [print], [logging.error], the cache file, the CSV file and the report
      files are fields of an explicit [World]; an uncaught exception is the
      outcome [Raise]. *)

From Stdlib Require Import ZArith QArith Qround Qfield List String Ascii Bool Lia.
From Stdlib Require Import Lqa.
Import ListNotations.

Set Implicit Arguments.
Local Open Scope Q_scope.

(** ** Exceptions *)

Inductive exn :=
| AttributeError
| TypeError
| KeyError
| ValueError
| UnpicklingError
| EOFError
| FileNotFoundError.

(** ** Data model *)

(** One node of the Tibber [consumption] query: a row of [tibber_df]. *)
Record PriceInterval := mkPriceInterval {
  from : Z;
  to : Z;
  cost : Q;
  unitPrice : Q;
  consumption : Q
}.

Definition TibberDf := list PriceInterval.

(** One row of [wallbox_data].  The two derived columns
    ['Tibber Price [EUR/kWh]'] and ['Total Cost [EUR]'] are absent ([None])
    until a pricing step creates them; [passthrough] holds every other column
    of the Wallbox export. *)
Record Session := mkSession {
  start : Z;
  end_ : Z;
  energy : Q;
  id_chip_name : option string;
  passthrough : list (string * string);
  Tibber_Price : option Q;
  Total_Cost : option Q
}.

Definition DataFrame := list Session.

Record Address := mkAddress { address1 : string; postalCode : string; city : string }.
Record Owner := mkOwner { firstName : string; lastName : string }.

(** The dictionary pickled by [save_cache]. *)
Record Cache := mkCache {
  timestamp : Z;
  c_wallbox_data : option DataFrame;
  c_tibber_data : option TibberDf;
  c_address : option Address;
  c_owner : option Owner
}.

(** The state of [CACHE_FILE] on disk: no file; a pickled dictionary of
    [save_cache]; or a file that cannot be read as one, with the exception
    that reading it ends in ([UnpicklingError] for damaged bytes, [EOFError]
    for an empty file, [TypeError] or [KeyError] for a pickle of something
    else). *)
Inductive CacheFile :=
| Absent
| Corrupt (e : exn)
| Pickled (c : Cache).

Inductive ReportKind := Excel | Pdf.

(** A rendered table line of a report: the numbers are the decimal values
    that the format strings print. *)
Record ReportRow := mkReportRow {
  rr_date : Z;
  rr_energy : Q;
  rr_price : Q;
  rr_cost : Q
}.

Record Report := mkReport {
  r_kind : ReportKind;
  r_start_date : Z;
  r_end_date : Z;
  r_total_energy : Q;
  r_total_cost : Q;
  r_address : Address;
  r_owner : Owner;
  r_rows : list ReportRow
}.

Inductive Source := Wallbox | Tibber.

(** What the program prints or logs, one constructor per message. *)
Inductive Message :=
| NoMatchingPrice (start_time end_time : Z)
| UsingCachedData
| FetchingNewData
| LogError (s : Source)
| ExportingCsv
| CsvExportCompleted
| RowsBeforePrices (n : nat)
| RowsAfterApply (n : nat)
| TotalEnergyConsumed (q : Q)
| TotalCostLine (q : Q)
| ExcelReportGenerated
| PdfReportGenerated
| ReportsGenerated
| ProcessingData (id : string) (start_date end_date : Z)
| ReportsSuccess.

(** ** Effects *)

(** [Unmodelled] marks a run that leaves the fragment of Python's regular
    expressions covered here (see [re_compile]). *)
Inductive result (A : Type) :=
| Ok (a : A)
| Raise (e : exn)
| Unmodelled.
Arguments Raise {A} e.
Arguments Unmodelled {A}.

Record World := mkWorld {
  stdout : list Message;
  cache_file : CacheFile;
  csv_file : option DataFrame;
  report_files : list Report
}.

Definition M (A : Type) := World -> result A * World.

Definition ret {A} (a : A) : M A := fun w => (Ok a, w).

Definition bind {A B} (m : M A) (k : A -> M B) : M B :=
  fun w =>
    match m w with
    | (Ok a, w') => k a w'
    | (Raise e, w') => (Raise e, w')
    | (Unmodelled, w') => (Unmodelled, w')
    end.

Definition raise {A} (e : exn) : M A := fun w => (Raise e, w).
Definition unmodelled {A} : M A := fun w => (Unmodelled, w).

Notation "x <- m ;; k" := (bind m (fun x => k))
  (at level 61, m at next level, right associativity).
Notation "m ;;; k" := (bind m (fun _ => k))
  (at level 61, right associativity).

Definition print (m : Message) : M unit :=
  fun w => (Ok tt, mkWorld (stdout w ++ [m]) (cache_file w) (csv_file w) (report_files w)).

Definition write_cache (c : Cache) : M unit :=
  fun w => (Ok tt, mkWorld (stdout w) (Pickled c) (csv_file w) (report_files w)).

Definition to_csv (df : DataFrame) : M unit :=
  fun w => (Ok tt, mkWorld (stdout w) (cache_file w) (Some df) (report_files w)).

Definition write_report (r : Report) : M unit :=
  fun w => (Ok tt, mkWorld (stdout w) (cache_file w) (csv_file w) (report_files w ++ [r])).

(** Calling [f] on the rows of a frame in order, as [DataFrame.apply] and
    [iterrows] do on a frame with rows; the first exception ends the
    traversal. *)
Fixpoint apply_rows {A B} (f : A -> M B) (rows : list A) : M (list B) :=
  match rows with
  | [] => ret []
  | r :: rows' =>
      v <- f r ;;
      vs <- apply_rows f rows' ;;
      ret (v :: vs)
  end.

(** What [DataFrame.apply(f, axis=1)] returns: a Series of the results of
    [f], or, on a frame without rows, a copy of that frame. *)
Inductive Applied :=
| AsSeries (col : list Q)
| AsFrame.

(** [DataFrame.apply(f, axis=1)].  On a frame without rows pandas probes
    [f] once on a row of NaN and drops the exception of that call; the
    function of this program raises there, on a price table ([TypeError]: a
    NaN start cannot be compared with the dates of the table) as on [None],
    and prints nothing, so that the result is the copy of the frame. *)
Definition DataFrame_apply (f : Session -> M Q) (df : DataFrame) : M Applied :=
  match df with
  | [] => ret AsFrame
  | _ => col <- apply_rows f df ;; ret (AsSeries col)
  end.

(** ** pandas and numpy operations *)

(** [df[mask]]: the rows whose mask entry is [True]. *)
Fixpoint boolean_index {A} (mask : list bool) (rows : list A) : list A :=
  match mask, rows with
  | b :: mask', r :: rows' =>
      if b then r :: boolean_index mask' rows' else boolean_index mask' rows'
  | _, _ => []
  end.

(** [a & b] on two boolean Series. *)
Fixpoint series_and (a b : list bool) : list bool :=
  match a, b with
  | x :: a', y :: b' => (x && y) :: series_and a' b'
  | _, _ => []
  end.

(** [Series.sum()]: accumulation from the left, starting at 0; the exact
    sum, without the rounding a float addition makes at each step. *)
Definition series_sum (l : list Q) : Q := fold_left Qplus l 0.

(** [Series.mean()]: the sum divided by the number of values. *)
Definition series_mean (l : list Q) : Q :=
  series_sum l / inject_Z (Z.of_nat (List.length l)).

(** [numpy.rint]: the nearest integer, ties to the even one. *)
Definition rint (q : Q) : Z :=
  let f := Qfloor q in
  match Qcompare (q - inject_Z f) (1 # 2) with
  | Lt => f
  | Gt => (f + 1)%Z
  | Eq => if Z.even f then f else (f + 1)%Z
  end.

(** [numpy.round(x, d)], behind [DataFrame.round(d)]: scale, [rint], scale
    back, on the exact value.  The same function stands for the format
    [f"{x:.df}"] of the reports, which rounds the exact value of the float to
    the nearest decimal: the two agree on every value that is not half-way
    between two decimals of [d] digits. *)
Definition round_dec (d : nat) (q : Q) : Q :=
  inject_Z (rint (q * inject_Z (10 ^ Z.of_nat d))) / inject_Z (10 ^ Z.of_nat d).

(** ** Price matching *)

(** Line 197: the rows of [tibber_df] selected by the two comparisons. *)
Definition price_during_session (start_time end_time : Z) (df : TibberDf) : TibberDf :=
  let mask :=
    series_and (map (fun r => (from r <=? end_time)%Z) df)
               (map (fun r => (to r >=? start_time)%Z) df) in
  boolean_index mask df.

(** [calculate_tibber_price(start_time, end_time, tibber_df)]; subscripting
    [None] raises [TypeError]. *)
Definition calculate_tibber_price (start_time end_time : Z)
    (tibber_df : option TibberDf) : M Q :=
  match tibber_df with
  | None => raise TypeError
  | Some df =>
      match price_during_session start_time end_time df with
      | [] => print (NoMatchingPrice start_time end_time) ;;; ret 0
      | sel => ret (series_mean (map unitPrice sel))
      end
  end.

(** ** [Series.str.contains(pat, case=False, na=False)]

    pandas compiles [pat] with [re.compile(pat, re.IGNORECASE)] (its
    [regex] argument defaults to [True]) and keeps the values in which
    [search] finds a match.  The patterns covered are those made of ordinary
    characters and of ['.']; any other special character of [re] leaves the
    covered fragment. *)

(** Lower case of a code point below 256 (the letters A-Z and the
    upper-case Latin-1 letters, which exclude the multiplication sign). *)
Definition lower (c : ascii) : ascii :=
  let n := N_of_ascii c in
  if (((65 <=? n) && (n <=? 90)) ||
      ((192 <=? n) && (n <=? 222) && negb (n =? 215)))%N
  then ascii_of_N (n + 32)
  else c.

(** The special characters of Python's [re] syntax. *)
Definition is_special (c : ascii) : bool :=
  existsb (Ascii.eqb c) (list_ascii_of_string ".^$*+?{}[]\|()").

Inductive atom :=
| Lit (c : ascii)
| AnyChar.

Fixpoint re_compile (pat : string) : option (list atom) :=
  match pat with
  | EmptyString => Some []
  | String c pat' =>
      if Ascii.eqb c "." then option_map (cons AnyChar) (re_compile pat')
      else if is_special c then None
      else option_map (cons (Lit (lower c))) (re_compile pat')
  end.

(** ['.'] matches any character but a newline; a literal matches up to
    case. *)
Definition atom_matches (a : atom) (c : ascii) : bool :=
  match a with
  | Lit p => Ascii.eqb (lower c) p
  | AnyChar => negb (Ascii.eqb c "010")
  end.

Fixpoint match_here (re : list atom) (text : string) : bool :=
  match re, text with
  | [], _ => true
  | a :: re', String c text' => atom_matches a c && match_here re' text'
  | _ :: _, EmptyString => false
  end.

(** [regex.search(text) is not None]: a match at some position. *)
Fixpoint re_search (re : list atom) (text : string) : bool :=
  match_here re text ||
  match text with
  | EmptyString => false
  | String _ text' => re_search re text'
  end.

Definition str_contains (pat : string) (col : list (option string)) : M (list bool) :=
  match re_compile pat with
  | None => unmodelled
  | Some re =>
      ret (map (fun x => match x with
                         | None => false
                         | Some s => re_search re s
                         end) col)
  end.

(** ** Column assignment *)

Definition with_Tibber_Price (r : Session) (v : Q) : Session :=
  mkSession (start r) (end_ r) (energy r) (id_chip_name r) (passthrough r)
            (Some v) (Total_Cost r).

Definition with_Total_Cost (r : Session) (v : Q) : Session :=
  mkSession (start r) (end_ r) (energy r) (id_chip_name r) (passthrough r)
            (Tibber_Price r) (Some v).

(** [df['Tibber Price [EUR/kWh]'] = col]: the column is created, or
    overwritten when the frame has it. *)
Fixpoint set_Tibber_Price (df : DataFrame) (col : list Q) : DataFrame :=
  match df, col with
  | r :: df', v :: col' => with_Tibber_Price r v :: set_Tibber_Price df' col'
  | _, _ => []
  end.

(** [df['Total Cost [EUR]'] = col]. *)
Fixpoint set_Total_Cost (df : DataFrame) (col : list Q) : DataFrame :=
  match df, col with
  | r :: df', v :: col' => with_Total_Cost r v :: set_Total_Cost df' col'
  | _, _ => []
  end.

(** Whether the frame has the column ['Tibber Price [EUR/kWh]']; a frame
    without rows is taken to have no derived column: no pricing step of this
    program leaves one behind. *)
Definition has_Tibber_Price (df : DataFrame) : bool :=
  existsb (fun r => match Tibber_Price r with
                    | Some _ => true
                    | None => false
                    end) df.

(** Line 205, [df['Tibber Price [EUR/kWh]'] = applied]: a frame of several
    columns cannot be assigned to one column, [ValueError]. *)
Definition setitem_Tibber_Price (df : DataFrame) (applied : Applied) : M DataFrame :=
  match applied with
  | AsSeries col => ret (set_Tibber_Price df col)
  | AsFrame => raise ValueError
  end.

(** Line 339, [df.loc[:, 'Tibber Price [EUR/kWh]'] = applied], on a
    selection [df] of a frame that has the column or not ([has_column]).  A
    frame assigned to an existing column is aligned on its rows, of which it
    has none; assigned to a new column it is refused, [ValueError]. *)
Definition loc_set_Tibber_Price (has_column : bool) (df : DataFrame)
    (applied : Applied) : M DataFrame :=
  match applied with
  | AsSeries col => ret (set_Tibber_Price df col)
  | AsFrame => if has_column then ret df else raise ValueError
  end.

(** [a * b] on two numeric Series. *)
Fixpoint series_mul (a b : list Q) : list Q :=
  match a, b with
  | x :: a', y :: b' => (x * y) :: series_mul a' b'
  | _, _ => []
  end.

(** [df[cols] = df[cols].round(2)] for the columns [energy],
    ['Tibber Price [EUR/kWh]'] and ['Total Cost [EUR]']. *)
Definition round_columns (r : Session) : Session :=
  mkSession (start r) (end_ r) (round_dec 2 (energy r)) (id_chip_name r)
            (passthrough r)
            (option_map (round_dec 2) (Tibber_Price r))
            (option_map (round_dec 2) (Total_Cost r)).

(** Reading a derived column of a row; [KeyError] when it is absent. *)
Definition get_item (v : option Q) : M Q :=
  match v with
  | Some q => ret q
  | None => raise KeyError
  end.

(** [df['Tibber Price [EUR/kWh]']] and [df['Total Cost [EUR]']]: reading a
    derived column of a frame. *)
Definition get_column (col : Session -> option Q) (df : DataFrame) : M (list Q) :=
  apply_rows (fun r => get_item (col r)) df.

(** ** CSV export *)

(** [export_table_with_prices(wallbox_data, tibber_df)].  The function
    mutates the frame it is given; the mutated frame is returned, and [main]
    goes on with it. *)
Definition export_table_with_prices (wallbox_data : option DataFrame)
    (tibber_df : option TibberDf) : M DataFrame :=
  match wallbox_data with
  | None => raise AttributeError
  | Some rows =>
      applied <- DataFrame_apply
                   (fun row => calculate_tibber_price (start row) (end_ row) tibber_df)
                   rows ;;
      rows <- setitem_Tibber_Price rows applied ;;
      price_col <- get_column Tibber_Price rows ;;
      let rows := set_Total_Cost rows (series_mul (map energy rows) price_col) in
      let rows := map round_columns rows in
      to_csv rows ;;;
      print CsvExportCompleted ;;;
      ret rows
  end.

(** ** Reports *)

(** One table line: the start, then energy, price and cost printed with
    [price_decimals] decimals for the price and 2 for the others. *)
Definition report_row (price_decimals : nat) (session : Session) : M ReportRow :=
  p <- get_item (Tibber_Price session) ;;
  c <- get_item (Total_Cost session) ;;
  ret (mkReportRow (start session) (round_dec 2 (energy session))
                   (round_dec price_decimals p) (round_dec 2 c)).

Definition generate_report (kind : ReportKind) (price_decimals : nat)
    (filtered_data : DataFrame) (start_date end_date : Z)
    (total_energy total_cost : Q)
    (address : option Address) (owner : option Owner) : M unit :=
  match address, owner with
  | Some a, Some o =>
      rows <- apply_rows (report_row price_decimals) filtered_data ;;
      write_report (mkReport kind start_date end_date
                             (round_dec 2 total_energy) (round_dec 2 total_cost)
                             a o rows)
  | _, _ => raise TypeError
  end.

(** [generate_excel_report]: every number with 2 decimals; the workbook is
    written by [workbook.close()], the last statement before the message. *)
Definition generate_excel_report (filtered_data : DataFrame) (start_date end_date : Z)
    (total_energy total_cost : Q)
    (address : option Address) (owner : option Owner) : M unit :=
  generate_report Excel 2 filtered_data start_date end_date
                  total_energy total_cost address owner ;;;
  print ExcelReportGenerated.

(** [generate_pdf_report]: the unit price with 4 decimals. *)
Definition generate_pdf_report (filtered_data : DataFrame) (start_date end_date : Z)
    (total_energy total_cost : Q)
    (address : option Address) (owner : option Owner) : M unit :=
  generate_report Pdf 4 filtered_data start_date end_date
                  total_energy total_cost address owner ;;;
  print PdfReportGenerated.

(** ** Filtering and aggregation *)

(** The locals of [process_data_with_filters] that the reports are built
    from. *)
Record Summary := mkSummary {
  filtered_data : DataFrame;
  total_energy : Q;
  total_cost : Q
}.

(** Lines 331-335: the boolean indexing that builds [filtered_data], a new
    frame. *)
Definition filter_sessions (rows : DataFrame) (id_chip_name_arg : string)
    (start_date end_date : Z) : M DataFrame :=
  by_name <- str_contains id_chip_name_arg (map id_chip_name rows) ;;
  let by_start := map (fun r => (start r >=? start_date)%Z) rows in
  let by_end := map (fun r => (end_ r <=? end_date)%Z) rows in
  ret (boolean_index (series_and (series_and by_name by_start) by_end) rows).

(** [process_data_with_filters(...)].  The Python function returns [None];
    the model returns its locals [filtered_data], [total_energy] and
    [total_cost], the arguments of the two report generators. *)
Definition process_data_with_filters (wallbox_data : option DataFrame)
    (tibber_df : option TibberDf) (id_chip_name_arg : string)
    (start_date end_date : Z)
    (address : option Address) (owner : option Owner) : M Summary :=
  match wallbox_data with
  | None => raise TypeError
  | Some rows =>
      filtered_data <- filter_sessions rows id_chip_name_arg start_date end_date ;;
      print (RowsBeforePrices (List.length filtered_data)) ;;;
      applied <- DataFrame_apply
                   (fun row => calculate_tibber_price (start row) (end_ row) tibber_df)
                   filtered_data ;;
      filtered_data <- loc_set_Tibber_Price (has_Tibber_Price rows) filtered_data
                                            applied ;;
      price_col <- get_column Tibber_Price filtered_data ;;
      let filtered_data :=
        set_Total_Cost filtered_data (series_mul (map energy filtered_data) price_col) in
      price_col <- get_column Tibber_Price filtered_data ;;
      print (RowsAfterApply (List.length price_col)) ;;;
      price_col <- get_column Tibber_Price filtered_data ;;
      let filtered_data :=
        set_Total_Cost filtered_data (series_mul (map energy filtered_data) price_col) in
      let total_energy := series_sum (map energy filtered_data) in
      cost_col <- get_column Total_Cost filtered_data ;;
      let total_cost := series_sum cost_col in
      print (TotalEnergyConsumed (round_dec 2 total_energy)) ;;;
      print (TotalCostLine (round_dec 2 total_cost)) ;;;
      generate_excel_report filtered_data start_date end_date
                            total_energy total_cost address owner ;;;
      generate_pdf_report filtered_data start_date end_date
                          total_energy total_cost address owner ;;;
      print ReportsGenerated ;;;
      ret (mkSummary filtered_data total_energy total_cost)
  end.

(** ** Cache *)

(** [timedelta(hours=1)] in microseconds. *)
Definition one_hour : Z := 3600 * 10 ^ 6.

(** [is_cache_valid()], with the value of [datetime.now()] as argument. *)
Definition is_cache_valid (now : Z) : M bool :=
  fun w =>
    match cache_file w with
    | Absent => (Ok false, w)
    | Corrupt e => (Raise e, w)
    | Pickled cache =>
        let last_fetch_time := timestamp cache in
        if (now - last_fetch_time <? one_hour)%Z then (Ok true, w) else (Ok false, w)
    end.

(** [load_cache()]: the date conversions subscript [wallbox_data] and
    [tibber_df], which fails on [None]; on frames they change nothing. *)
Definition load_cache
  : M (option DataFrame * option TibberDf * option Address * option Owner) :=
  fun w =>
    match cache_file w with
    | Absent => (Raise FileNotFoundError, w)
    | Corrupt e => (Raise e, w)
    | Pickled cache =>
        match c_wallbox_data cache, c_tibber_data cache with
        | Some wallbox_data, Some tibber_df =>
            (Ok (Some wallbox_data, Some tibber_df, c_address cache, c_owner cache), w)
        | _, _ => (Raise TypeError, w)
        end
    end.

(** [save_cache(wallbox_data, tibber_df, address, owner)], with the value of
    [datetime.now()] as first argument. *)
Definition save_cache (now : Z) (wallbox_data : option DataFrame)
    (tibber_df : option TibberDf) (address : option Address)
    (owner : option Owner) : M unit :=
  write_cache (mkCache now wallbox_data tibber_df address owner).

(** ** Retrieval *)

(** What a remote service answers: the parsed response, or a
    [requests.RequestException]. *)
Inductive ApiOutcome (A : Type) :=
| Response (a : A)
| RequestException.
Arguments RequestException {A}.

(** [fetch_wallbox_data()]: the exception is caught, logged, and three
    [None] are returned. *)
Definition fetch_wallbox_data (api : ApiOutcome (DataFrame * Address * Owner))
  : M (option DataFrame * option Address * option Owner) :=
  match api with
  | Response (wallbox_data, address, owner) =>
      ret (Some wallbox_data, Some address, Some owner)
  | RequestException =>
      print (LogError Wallbox) ;;; ret (None, None, None)
  end.

(** [fetch_tibber_data()]: likewise for a failed request.  The answer is
    the nodes of all pages (see [fetch_tibber_data_paged] for the paging); a
    frame built from no node has no column, and [tibber_df['from']] at line
    184 raises [KeyError], which the [except] clause does not catch. *)
Definition fetch_tibber_data (api : ApiOutcome (TibberDf * Address * Owner))
  : M (option TibberDf * option Address * option Owner) :=
  match api with
  | Response ([], _, _) => raise KeyError
  | Response (tibber_df, address, owner) =>
      ret (Some tibber_df, Some address, Some owner)
  | RequestException =>
      print (LogError Tibber) ;;; ret (None, None, None)
  end.

(** ** The run *)

(** What a run reads from outside: the clock, the two services and the
    three answers typed by the user (the dates already parsed). *)
Record Env := mkEnv {
  now : Z;
  wallbox_api : ApiOutcome (DataFrame * Address * Owner);
  tibber_api : ApiOutcome (TibberDf * Address * Owner);
  input_id_chip_name : string;
  input_start_date : Z;
  input_end_date : Z
}.

(** [main()]. *)
Definition main (env : Env) : M unit :=
  valid <- is_cache_valid (now env) ;;
  data <- (if valid : bool then
             print UsingCachedData ;;;
             load_cache
           else
             print FetchingNewData ;;;
             wb <- fetch_wallbox_data (wallbox_api env) ;;
             let '(wallbox_data, address, owner) := wb in
             tb <- fetch_tibber_data (tibber_api env) ;;
             let '(tibber_df, tibber_address, tibber_owner) := tb in
             save_cache (now env) wallbox_data tibber_df tibber_address tibber_owner ;;;
             ret (wallbox_data, tibber_df, tibber_address, tibber_owner)) ;;
  let '(wallbox_data, tibber_df, address, owner) := data in
  print ExportingCsv ;;;
  wallbox_data <- export_table_with_prices wallbox_data tibber_df ;;
  let id_chip_name_arg := input_id_chip_name env in
  let start_date := input_start_date env in
  let end_date := input_end_date env in
  print (ProcessingData id_chip_name_arg start_date end_date) ;;;
  process_data_with_filters (Some wallbox_data) tibber_df id_chip_name_arg
                            start_date end_date address owner ;;;
  print ReportsSuccess.

(** ** Definitions used in the statements *)

(** The sum of a sequence, written as in the specification. *)
Definition sum_Q (l : list Q) : Q := fold_right Qplus 0 l.

(** Specification 4.1: an interval overlaps the session when it starts no
    later than the session ends and ends no earlier than it starts. *)
Definition overlaps (start_time end_time : Z) (p : PriceInterval) : Prop :=
  (from p <= end_time)%Z /\ (to p >= start_time)%Z.

Definition overlapsb (start_time end_time : Z) (p : PriceInterval) : bool :=
  (from p <=? end_time)%Z && (to p >=? start_time)%Z.

(** Specification 4.1: [intervalsOverlapping(start, end)]. *)
Definition intervalsOverlapping (start_time end_time : Z) (df : TibberDf) : TibberDf :=
  filter (overlapsb start_time end_time) df.

(** The value [calculate_tibber_price] returns on a frame. *)
Definition effectivePrice (df : TibberDf) (start_time end_time : Z) : Q :=
  match price_during_session start_time end_time df with
  | [] => 0
  | sel => series_mean (map unitPrice sel)
  end.

(** The diagnostic it prints, if any. *)
Definition diagnostic (df : TibberDf) (start_time end_time : Z) : list Message :=
  match price_during_session start_time end_time df with
  | [] => [NoMatchingPrice start_time end_time]
  | _ => []
  end.

Definition emit (ms : list Message) (w : World) : World :=
  mkWorld (stdout w ++ ms) (cache_file w) (csv_file w) (report_files w).

(** A time of day, in microseconds after midnight of some fixed day. *)
Definition clock_time (h m : Z) : Z := ((h * 3600 + m * 60) * 10 ^ 6)%Z.

Definition empty_world : World := mkWorld [] Absent None [].

(** Lower case of every character. *)
Fixpoint str_lower (s : string) : string :=
  match s with
  | EmptyString => EmptyString
  | String c s' => String (lower c) (str_lower s')
  end.

(** Specification 4.5: [s] contains [sub] case-insensitively. *)
Definition contains_ci (s sub : string) : Prop :=
  exists pre post, str_lower s = (pre ++ str_lower sub ++ post)%string.

(** A search text without special characters of [re]. *)
Fixpoint ordinary (pat : string) : bool :=
  match pat with
  | EmptyString => true
  | String c pat' => negb (is_special c) && ordinary pat'
  end.

(** The compiled form of a text taken literally. *)
Fixpoint lits (pat : string) : list atom :=
  match pat with
  | EmptyString => []
  | String c pat' => Lit (lower c) :: lits pat'
  end.

(** Specification 4.5: a session is retained when its identifier is present
    and contains the text case-insensitively, it starts no earlier than the
    start date and ends no later than the end date. *)
Definition retained (id_sub : string) (start_date end_date : Z) (r : Session) : Prop :=
  (exists s, id_chip_name r = Some s /\ contains_ci s id_sub) /\
  (start r >= start_date)%Z /\ (end_ r <= end_date)%Z.

(** The test the three masks of [filter_sessions] make on one row, for a
    compiled search text. *)
Definition keep_row (re : list atom) (start_date end_date : Z) (r : Session) : bool :=
  match id_chip_name r with
  | None => false
  | Some s => re_search re s
  end && (start r >=? start_date)%Z && (end_ r <=? end_date)%Z.

(** A row after a pricing step on the table [df], before any rounding. *)
Definition priced (df : TibberDf) (r : Session) : Session :=
  let p := effectivePrice df (start r) (end_ r) in
  mkSession (start r) (end_ r) (energy r) (id_chip_name r) (passthrough r)
            (Some p) (Some (energy r * p)).

(** The diagnostics printed while the rows are priced, in order. *)
Definition diagnostics (df : TibberDf) (rows : DataFrame) : list Message :=
  flat_map (fun r => diagnostic df (start r) (end_ r)) rows.

(** The table line a report shows for a session priced on [df]. *)
Definition shown_row (price_decimals : nat) (df : TibberDf) (r : Session) : ReportRow :=
  let p := effectivePrice df (start r) (end_ r) in
  mkReportRow (start r) (round_dec 2 (energy r)) (round_dec price_decimals p)
              (round_dec 2 (energy r * p)).

Definition volvo_session : Session :=
  mkSession (clock_time 10 0) (clock_time 11 30) 10 (Some "VolvoXC40"%string) [] None None.

(** The world after [process_data_with_filters] has run on the rows
    [fd] it selected. *)
Definition after_reports (df : TibberDf) (fd : DataFrame) (start_date end_date : Z)
    (a : Address) (o : Owner) (w : World) : World :=
  let total_energy := series_sum (map energy fd) in
  let total_cost := series_sum (map (fun r => energy r * effectivePrice df (start r) (end_ r)) fd) in
  let report kind d :=
    mkReport kind start_date end_date (round_dec 2 total_energy) (round_dec 2 total_cost)
             a o (map (shown_row d df) fd) in
  mkWorld (stdout w ++ [RowsBeforePrices (List.length fd)] ++ diagnostics df fd ++
             [RowsAfterApply (List.length fd);
              TotalEnergyConsumed (round_dec 2 total_energy);
              TotalCostLine (round_dec 2 total_cost);
              ExcelReportGenerated; PdfReportGenerated; ReportsGenerated])
          (cache_file w) (csv_file w)
          (report_files w ++ [report Excel 2%nat; report Pdf 4%nat]).

(** A row of the exported table: priced on [df], then rounded. *)
Definition exported (df : TibberDf) (r : Session) : Session :=
  round_columns (priced df r).

(** The value in ['Total Cost [EUR]'] of a row. *)
Definition row_cost (r : Session) : Q :=
  match Total_Cost r with
  | Some c => c
  | None => 0
  end.

(** Specification 4.3 and 8: the sum of the per-row costs, each rounded to 2
    decimals first. *)
Definition rounded_then_summed (fd : DataFrame) : Q :=
  sum_Q (map (fun r => round_dec 2 (row_cost r)) fd).

(** The fields of a session other than its energy and the two derived
    ones. *)
Definition same_passthrough (r r' : Session) : Prop :=
  start r' = start r /\ end_ r' = end_ r /\
  id_chip_name r' = id_chip_name r /\ passthrough r' = passthrough r.

Definition home : Address := mkAddress "Hauptstr. 1" "12345" "Berlin".
Definition resident : Owner := mkOwner "Erika" "Mustermann".

(** Two sessions of 10 kWh in an hour priced 0.2996. *)
Definition two_sessions : DataFrame :=
  [mkSession (clock_time 10 0) (clock_time 10 30) 10 (Some "Volvo"%string) [] None None;
   mkSession (clock_time 10 30) (clock_time 10 45) 10 (Some "Volvo"%string) [] None None].

Definition one_price : TibberDf :=
  [mkPriceInterval (clock_time 10 0) (clock_time 11 0) 0 (2996 # 10000) 0].

(** A session of 1.004 kWh. *)
Definition fine_session : Session :=
  mkSession (clock_time 10 0) (clock_time 10 30) (1004 # 1000) (Some "Volvo"%string)
            [] None None.

(** A computation that leaves the cache file alone and only appends to the
    output. *)
Definition keeps_cache {A} (m : M A) : Prop :=
  forall w,
    cache_file (snd (m w)) = cache_file w /\
    exists l, stdout (snd (m w)) = stdout w ++ l.

(** The entry [main] saves after the two retrievals. *)
Definition saved_entry (env : Env) : Cache :=
  mkCache (now env)
          (match wallbox_api env with
           | Response (wallbox_data, _, _) => Some wallbox_data
           | RequestException => None
           end)
          (match tibber_api env with
           | Response (tibber_df, _, _) => Some tibber_df
           | RequestException => None
           end)
          (match tibber_api env with
           | Response (_, address, _) => Some address
           | RequestException => None
           end)
          (match tibber_api env with
           | Response (_, _, owner) => Some owner
           | RequestException => None
           end).

(** A run at noon in which the Wallbox request fails and the Tibber request
    succeeds. *)
Definition wallbox_down : Env :=
  mkEnv (clock_time 12 0) RequestException (Response (one_price, home, resident))
        "volvo" (clock_time 0 0) (clock_time 24 0).

(** A run half an hour later with both services up. *)
Definition both_up_later : Env :=
  mkEnv (clock_time 12 30) (Response (two_sessions, home, resident))
        (Response (one_price, home, resident))
        "volvo" (clock_time 0 0) (clock_time 24 0).

Definition corrupt_world : World := mkWorld [] (Corrupt UnpicklingError) None [].

(** A run at noon in which the Tibber request fails and the Wallbox request
    succeeds. *)
Definition tibber_down : Env :=
  mkEnv (clock_time 12 0) (Response (two_sessions, home, resident)) RequestException
        "volvo" (clock_time 0 0) (clock_time 24 0).

(** The end-to-end scenario of the specification: one session of 10 kWh from
    10:00 to 11:30, two hours priced 0.30 and 0.40. *)
Definition scenario_prices : TibberDf :=
  [mkPriceInterval (clock_time 10 0) (clock_time 11 0) 0 (30 # 100) 0;
   mkPriceInterval (clock_time 11 0) (clock_time 12 0) 0 (40 # 100) 0].

Definition scenario (id_sub : string) : Env :=
  mkEnv (clock_time 12 0) (Response ([volvo_session], home, resident))
        (Response (scenario_prices, home, resident))
        id_sub (clock_time 0 0) (clock_time 24 0).

(** A session of 10.0149 kWh in an hour priced 0.35. *)
Definition odd_session : Session :=
  mkSession (clock_time 10 0) (clock_time 10 30) (100149 # 10000) (Some "Volvo"%string)
            [] None None.

Definition odd_run : Env :=
  mkEnv (clock_time 12 0) (Response ([odd_session], home, resident))
        (Response ([mkPriceInterval (clock_time 10 0) (clock_time 11 0) 0 (35 # 100) 0],
                   home, resident))
        "volvo" (clock_time 0 0) (clock_time 24 0).

(** The world after the steps of [main] that follow the loading or the
    retrieval of the data: CSV export of all [rows], then filtering,
    aggregation and reports on the exported frame. *)
Definition after_run (df : TibberDf) (rows : DataFrame) (id_sub : string)
    (re : list atom) (start_date end_date : Z) (a : Address) (o : Owner)
    (w : World) : World :=
  let out := map (exported df) rows in
  let w2 := mkWorld (stdout w ++ [ExportingCsv] ++ diagnostics df rows ++
                       [CsvExportCompleted; ProcessingData id_sub start_date end_date])
                    (cache_file w) (Some out) (report_files w) in
  emit [ReportsSuccess]
       (after_reports df (filter (keep_row re start_date end_date) out)
                      start_date end_date a o w2).

(** The table line a report of [main] shows for a retrieved session: the
    energy rounded to 2 decimals, and the cost computed from the rounded
    energy. *)
Definition run_row (price_decimals : nat) (df : TibberDf) (r : Session) : ReportRow :=
  let p := effectivePrice df (start r) (end_ r) in
  mkReportRow (start r) (round_dec 2 (energy r)) (round_dec price_decimals p)
              (round_dec 2 (round_dec 2 (energy r) * p)).

(** A world whose cache file holds a complete entry written at 11:30. *)
Definition cached_world : World :=
  mkWorld [] (Pickled (mkCache (clock_time 11 30) (Some two_sessions) (Some one_price)
                               (Some home) (Some resident)))
          None [].

(** A world whose cache file holds a complete entry written at 09:00. *)
Definition stale_world : World :=
  mkWorld [] (Pickled (mkCache (clock_time 9 0) (Some two_sessions) (Some one_price)
                               (Some home) (Some resident)))
          None [].

Definition elsewhere : Address := mkAddress "Nebenweg 2" "54321" "Hamburg".
Definition someone_else : Owner := mkOwner "Max" "Beispiel".

(** A run at noon with both services up; the Wallbox service reports
    another address and owner than the Tibber service. *)
Definition both_up : Env :=
  mkEnv (clock_time 12 0) (Response (two_sessions, elsewhere, someone_else))
        (Response (one_price, home, resident))
        "volvo" (clock_time 0 0) (clock_time 24 0).

(** The steps of [main] that follow the loading or the retrieval of the
    data, as they stand in [main]. *)
Definition main_rest (env : Env)
    (data : option DataFrame * option TibberDf * option Address * option Owner)
  : M unit :=
  let '(wallbox_data, tibber_df, address, owner) := data in
  print ExportingCsv ;;;
  wallbox_data <- export_table_with_prices wallbox_data tibber_df ;;
  let id_chip_name_arg := input_id_chip_name env in
  let start_date := input_start_date env in
  let end_date := input_end_date env in
  print (ProcessingData id_chip_name_arg start_date end_date) ;;;
  process_data_with_filters (Some wallbox_data) tibber_df id_chip_name_arg
                            start_date end_date address owner ;;;
  print ReportsSuccess.

(** The retrieval branch of [main], as it stands in [main]. *)
Definition main_retrieve (env : Env)
  : M (option DataFrame * option TibberDf * option Address * option Owner) :=
  print FetchingNewData ;;;
  wb <- fetch_wallbox_data (wallbox_api env) ;;
  let '(wallbox_data, address, owner) := wb in
  tb <- fetch_tibber_data (tibber_api env) ;;
  let '(tibber_df, tibber_address, tibber_owner) := tb in
  save_cache (now env) wallbox_data tibber_df tibber_address tibber_owner ;;;
  ret (wallbox_data, tibber_df, tibber_address, tibber_owner).

(** The two rows of [two_sessions]. *)
Definition volvo_session_a : Session :=
  mkSession (clock_time 10 0) (clock_time 10 30) 10 (Some "Volvo"%string) [] None None.

Definition volvo_session_b : Session :=
  mkSession (clock_time 10 30) (clock_time 10 45) 10 (Some "Volvo"%string) [] None None.

(** ** Paging through the Tibber consumption

    [fetch_tibber_data] asks for the hourly consumption page by page.  A
    [Page] is one answer after [response.json()], its dates parsed: the
    [nodes], the two fields of [pageInfo], and the [address] and [owner] keys
    of the home, [None] when the key is missing.  The service is a function
    from the cursor sent to its answer. *)
Record Page := mkPage {
  nodes : list PriceInterval;
  hasNextPage : bool;
  endCursor : option string;
  home_address : option Address;
  home_owner : option Owner
}.

Definition TibberServer := option string -> ApiOutcome Page.

(** Lines 137-180: the [while has_next_page] loop; [fuel] bounds the number
    of requests, and [None] is returned when it runs out.  The result is
    [all_data] and the last [home_data], or the exception of a request. *)
Fixpoint tibber_pages (fuel : nat) (server : TibberServer) (cursor : option string)
    (all_data : list PriceInterval)
  : option (ApiOutcome (list PriceInterval * Page)) :=
  match fuel with
  | O => None
  | S fuel' =>
      match server cursor with
      | RequestException => Some RequestException
      | Response page =>
          let all_data := all_data ++ nodes page in
          if hasNextPage page
          then tibber_pages fuel' server (endCursor page) all_data
          else Some (Response (all_data, page))
      end
  end.

(** The defaults of [home_data.get('address', ...)] and
    [home_data.get('owner', ...)]. *)
Definition unknown_address : Address := mkAddress "Unknown" "00000" "Unknown".
Definition unknown_owner : Owner := mkOwner "Unknown" "Unknown".

Definition address_or_unknown (a : option Address) : Address :=
  match a with
  | Some a => a
  | None => unknown_address
  end.

Definition owner_or_unknown (o : option Owner) : Owner :=
  match o with
  | Some o => o
  | None => unknown_owner
  end.

(** [fetch_tibber_data()] with its paging.  A frame built from no node at
    all has no column, so that [tibber_df['from']] raises [KeyError], which
    the [except] clause does not catch. *)
Definition fetch_tibber_data_paged (fuel : nat) (server : TibberServer)
  : option (M (option TibberDf * option Address * option Owner)) :=
  match tibber_pages fuel server None [] with
  | None => None
  | Some RequestException =>
      Some (print (LogError Tibber) ;;; ret (None, None, None))
  | Some (Response (all_data, home_data)) =>
      Some (match all_data with
            | [] => raise KeyError
            | _ =>
                ret (Some all_data,
                     Some (address_or_unknown (home_address home_data)),
                     Some (owner_or_unknown (home_owner home_data)))
            end)
  end.

(** From [cursor] on, the service answers the pages [earlier], each
    announcing a next page and handing the cursor to it, and then [last],
    which announces none. *)
Fixpoint serves (server : TibberServer) (cursor : option string)
    (earlier : list Page) (last : Page) : Prop :=
  match earlier with
  | [] => server cursor = Response last /\ hasNextPage last = false
  | p :: earlier' =>
      server cursor = Response p /\ hasNextPage p = true /\
      serves server (endCursor p) earlier' last
  end.

(** From [cursor] on, the service answers the pages [earlier], each
    announcing a next page, and the request after them fails. *)
Fixpoint breaks_after (server : TibberServer) (cursor : option string)
    (earlier : list Page) : Prop :=
  match earlier with
  | [] => server cursor = RequestException
  | p :: earlier' =>
      server cursor = Response p /\ hasNextPage p = true /\
      breaks_after server (endCursor p) earlier'
  end.

(** The nodes of a sequence of pages, in order. *)
Definition all_nodes (pages : list Page) : list PriceInterval :=
  flat_map nodes pages.

(** A service with two pages, one hour on each. *)
Definition page_one : Page :=
  mkPage [mkPriceInterval (clock_time 10 0) (clock_time 11 0) 0 (30 # 100) 0]
         true (Some "c1"%string) (Some home) (Some resident).

Definition page_two : Page :=
  mkPage [mkPriceInterval (clock_time 11 0) (clock_time 12 0) 0 (40 # 100) 0]
         false None None (Some resident).

Definition two_page_server : TibberServer :=
  fun cursor =>
    match cursor with
    | None => Response page_one
    | Some _ => Response page_two
    end.

(** A service that fails on the second request. *)
Definition failing_server : TibberServer :=
  fun cursor =>
    match cursor with
    | None => Response page_one
    | Some _ => RequestException
    end.

(** A service whose single page has no node. *)
Definition empty_server : TibberServer :=
  fun _ => Response (mkPage [] false None (Some home) (Some resident)).

(** A service that always announces a next page. *)
Definition endless_server : TibberServer :=
  fun _ => Response page_one.

(** A run at noon, both services up, in which the Wallbox service reports
    no session. *)
Definition no_session_up : Env :=
  mkEnv (clock_time 12 0) (Response ([], elsewhere, someone_else))
        (Response (one_price, home, resident))
        "volvo" (clock_time 0 0) (clock_time 24 0).

(** * Properties *)

(** ** Lists of booleans and selections *)

Lemma boolean_index_map {A} (p : A -> bool) (l : list A) :
  boolean_index (map p l) l = filter p l.
Proof.
  induction l as [|x l IH]; simpl; [reflexivity|].
  destruct (p x); rewrite IH; reflexivity.
Qed.

Lemma series_and_map {A} (p q : A -> bool) (l : list A) :
  series_and (map p l) (map q l) = map (fun x => p x && q x) l.
Proof.
  induction l as [|x l IH]; simpl; [reflexivity|].
  rewrite IH; reflexivity.
Qed.

(** ** Sums and means of rationals *)

Lemma fold_left_Qplus_acc (l : list Q) (a : Q) :
  fold_left Qplus l a == a + fold_left Qplus l 0.
Proof.
  revert a; induction l as [|x l IH]; intros a; simpl.
  - ring.
  - rewrite (IH (a + x)), (IH (0 + x)). ring.
Qed.

Lemma series_sum_cons (x : Q) (l : list Q) :
  series_sum (x :: l) == x + series_sum l.
Proof.
  unfold series_sum; simpl.
  rewrite fold_left_Qplus_acc. ring.
Qed.

Lemma series_sum_sum_Q (l : list Q) : series_sum l == sum_Q l.
Proof.
  induction l as [|x l IH].
  - reflexivity.
  - rewrite series_sum_cons, IH. reflexivity.
Qed.

Lemma series_mean_total (l : list Q) :
  l <> [] ->
  series_mean l * inject_Z (Z.of_nat (List.length l)) == sum_Q l.
Proof.
  intros Hl. unfold series_mean.
  rewrite <- series_sum_sum_Q.
  assert (Hn : ~ inject_Z (Z.of_nat (List.length l)) == 0).
  { destruct l as [|x l]; [congruence|].
    unfold Qeq; simpl. lia. }
  field. exact Hn.
Qed.

(** Rounding to 2 decimals: ties go to the even neighbour. *)
Example round_dec_examples :
  round_dec 2 (2996 # 1000) == 3 /\
  round_dec 2 (125 # 1000) == 12 # 100 /\
  round_dec 2 (135 # 1000) == 14 # 100 /\
  round_dec 2 (- (125 # 1000)) == - (12 # 100) /\
  round_dec 4 (1 # 3) == 3333 # 10000.
Proof. repeat split; vm_compute; reflexivity. Qed.

(** ** The price of a session *)

Lemma overlapsb_spec start_time end_time p :
  overlapsb start_time end_time p = true <-> overlaps start_time end_time p.
Proof.
  unfold overlapsb, overlaps.
  rewrite andb_true_iff, Z.leb_le, Z.geb_le. lia.
Qed.

Lemma price_during_session_filter start_time end_time df :
  price_during_session start_time end_time df =
  intervalsOverlapping start_time end_time df.
Proof.
  unfold price_during_session, intervalsOverlapping.
  rewrite series_and_map.
  apply (boolean_index_map (overlapsb start_time end_time)).
Qed.

Lemma emit_nil w : emit [] w = w.
Proof. destruct w; unfold emit; simpl. rewrite app_nil_r. reflexivity. Qed.

Lemma emit_emit a b w : emit b (emit a w) = emit (a ++ b) w.
Proof. unfold emit; simpl. rewrite app_assoc. reflexivity. Qed.

Lemma calculate_tibber_price_run start_time end_time df w :
  calculate_tibber_price start_time end_time (Some df) w =
  (Ok (effectivePrice df start_time end_time),
   emit (diagnostic df start_time end_time) w).
Proof.
  unfold calculate_tibber_price, effectivePrice, diagnostic.
  destruct (price_during_session start_time end_time df) as [|p sel].
  - reflexivity.
  - rewrite emit_nil. reflexivity.
Qed.

(** C1: on a price table, [calculate_tibber_price] returns 0 and prints the
    diagnostic when no interval overlaps the session; otherwise it prints
    nothing and returns the unweighted arithmetic mean of [unitPrice] over the
    overlapping intervals: the returned value times their number is the sum
    of their unit prices. *)
Theorem calculate_tibber_price_mean (start_time end_time : Z) (df : TibberDf) (w : World) :
  exists v w',
    calculate_tibber_price start_time end_time (Some df) w = (Ok v, w') /\
    match intervalsOverlapping start_time end_time df with
    | [] =>
        v = 0 /\
        stdout w' = stdout w ++ [NoMatchingPrice start_time end_time] /\
        cache_file w' = cache_file w /\ csv_file w' = csv_file w /\
        report_files w' = report_files w
    | sel =>
        v * inject_Z (Z.of_nat (List.length sel)) == sum_Q (map unitPrice sel) /\
        w' = w
    end.
Proof.
  rewrite calculate_tibber_price_run.
  eexists; eexists; split; [reflexivity|].
  unfold effectivePrice, diagnostic.
  rewrite price_during_session_filter.
  destruct (intervalsOverlapping start_time end_time df) as [|p sel] eqn:E.
  - simpl. repeat split; reflexivity.
  - split.
    + rewrite <- (length_map unitPrice (p :: sel)).
      apply series_mean_total. discriminate.
    + apply emit_nil.
Qed.

(** The end-to-end scenario of the specification: a session from 10:00 to
    11:30 over the hours priced 0.30 and 0.40 is priced at 0.35, the plain
    mean, and not at the duration-weighted 0.3333. *)
Example calculate_tibber_price_scenario :
  let df := [mkPriceInterval (clock_time 10 0) (clock_time 11 0) 0 (30 # 100) 0;
             mkPriceInterval (clock_time 11 0) (clock_time 12 0) 0 (40 # 100) 0] in
  exists v,
    calculate_tibber_price (clock_time 10 0) (clock_time 11 30) (Some df) empty_world
    = (Ok v, empty_world) /\ v == 35 # 100.
Proof. eexists; split; reflexivity. Qed.

(** C2: an interval of the table is selected for a session exactly when
    [from <= end] and [to >= start]; touching endpoints count, so a table made
    of the one interval that ends where the session starts prices the session
    at that interval's unit price. *)
Theorem overlap_inclusive (start_time end_time : Z) (df : TibberDf) :
  (forall p,
      In p (price_during_session start_time end_time df) <->
      In p df /\ (from p <= end_time)%Z /\ (to p >= start_time)%Z) /\
  (forall p w,
      (from p < to p)%Z -> to p = start_time -> (start_time <= end_time)%Z ->
      exists v,
        calculate_tibber_price start_time end_time (Some [p]) w = (Ok v, w) /\
        v == unitPrice p).
Proof.
  split.
  - intros p. rewrite price_during_session_filter.
    unfold intervalsOverlapping. rewrite filter_In, overlapsb_spec.
    reflexivity.
  - intros p w Hp Hto Hse.
    rewrite calculate_tibber_price_run.
    unfold effectivePrice, diagnostic.
    rewrite price_during_session_filter. unfold intervalsOverlapping. simpl.
    assert (E : overlapsb start_time end_time p = true).
    { apply overlapsb_spec. unfold overlaps. lia. }
    rewrite E, emit_nil.
    eexists; split; [reflexivity|].
    unfold series_mean, series_sum; simpl. field.
Qed.

(** The session 10:00-11:00 against the single interval 09:00-10:00. *)
Lemma overlap_inclusive_witness :
  let p := mkPriceInterval (clock_time 9 0) (clock_time 10 0) 0 (30 # 100) 0 in
  ((from p < to p)%Z /\ to p = clock_time 10 0 /\
   (clock_time 10 0 <= clock_time 11 0)%Z) /\
  exists v,
    calculate_tibber_price (clock_time 10 0) (clock_time 11 0) (Some [p]) empty_world
    = (Ok v, empty_world) /\ v == 30 # 100.
Proof.
  split.
  - repeat split; vm_compute; congruence.
  - apply (proj2 (overlap_inclusive (clock_time 10 0) (clock_time 11 0) [])
             (mkPriceInterval (clock_time 9 0) (clock_time 10 0) 0 (30 # 100) 0)
             empty_world).
    + reflexivity.
    + reflexivity.
    + vm_compute; congruence.
Defined.

(** ** Cache freshness *)

(** C6: [is_cache_valid] answers [True] exactly when the cache file holds an
    entry and the time elapsed since its timestamp is strictly less than one
    hour: an entry is fresh 59 minutes after it was written, stale after 61
    minutes, and stale after exactly 60 minutes. *)
Theorem is_cache_valid_fresh (now_ : Z) (w : World) :
  (fst (is_cache_valid now_ w) = Ok true <->
   exists c, cache_file w = Pickled c /\ (now_ - timestamp c < one_hour)%Z) /\
  (forall c, cache_file w = Pickled c ->
     fst (is_cache_valid (timestamp c + 59 * 60 * 10 ^ 6) w) = Ok true /\
     fst (is_cache_valid (timestamp c + 61 * 60 * 10 ^ 6) w) = Ok false /\
     fst (is_cache_valid (timestamp c + 60 * 60 * 10 ^ 6) w) = Ok false) /\
  snd (is_cache_valid now_ w) = w.
Proof.
  unfold is_cache_valid.
  split; [|split].
  - destruct (cache_file w) as [| |c] eqn:E; simpl.
    + split; [discriminate|]. intros [c [H _]]; discriminate.
    + split; [discriminate|]. intros [c [H _]]; discriminate.
    + destruct (Z.ltb_spec (now_ - timestamp c) one_hour) as [H|H]; simpl.
      * split; [|reflexivity]. intros _. exists c. split; [reflexivity|exact H].
      * split; [discriminate|].
        intros [c' [Hc Hlt]]. injection Hc as <-. lia.
  - intros c E. rewrite E. unfold one_hour.
    repeat split.
    + destruct (Z.ltb_spec (timestamp c + 59 * 60 * 10 ^ 6 - timestamp c) (3600 * 10 ^ 6));
        [reflexivity|lia].
    + destruct (Z.ltb_spec (timestamp c + 61 * 60 * 10 ^ 6 - timestamp c) (3600 * 10 ^ 6));
        [lia|reflexivity].
    + destruct (Z.ltb_spec (timestamp c + 60 * 60 * 10 ^ 6 - timestamp c) (3600 * 10 ^ 6));
        [lia|reflexivity].
  - destruct (cache_file w) as [| |c]; simpl; [reflexivity|reflexivity|].
    destruct (now_ - timestamp c <? one_hour)%Z; reflexivity.
Qed.

(** ** Searching a text taken literally *)

Lemma re_compile_ordinary (pat : string) :
  ordinary pat = true -> re_compile pat = Some (lits pat).
Proof.
  induction pat as [|c pat IH]; simpl; [reflexivity|].
  intros H. apply andb_true_iff in H. destruct H as [Hc Hp].
  apply negb_true_iff in Hc.
  destruct (Ascii.eqb_spec c "."%char) as [->|_].
  - vm_compute in Hc. discriminate.
  - rewrite Hc, (IH Hp). reflexivity.
Qed.

Lemma match_here_prefix (pat text : string) :
  match_here (lits pat) text = true <->
  exists post, str_lower text = (str_lower pat ++ post)%string.
Proof.
  revert text. induction pat as [|c pat IH]; intros text; simpl.
  - split; [|reflexivity]. intros _. exists (str_lower text). reflexivity.
  - destruct text as [|d text]; simpl.
    + split; [discriminate|]. intros [post H]. discriminate.
    + rewrite andb_true_iff, IH. split.
      * intros [Hd [post Hp]]. apply Ascii.eqb_eq in Hd.
        exists post. rewrite Hd, Hp. reflexivity.
      * intros [post H]. injection H as Hd Hp. split.
        -- apply Ascii.eqb_eq. exact Hd.
        -- exists post. exact Hp.
Qed.

Lemma re_search_contains (pat text : string) :
  re_search (lits pat) text = true <-> contains_ci text pat.
Proof.
  unfold contains_ci.
  induction text as [|d text IH].
  - simpl. rewrite orb_false_r, match_here_prefix. simpl. split.
    + intros [post H]. exists EmptyString, post. exact H.
    + intros [pre [post H]]. destruct pre as [|x pre]; [|discriminate].
      exists post. exact H.
  - change (re_search (lits pat) (String d text))
      with (match_here (lits pat) (String d text) || re_search (lits pat) text).
    rewrite orb_true_iff, IH, match_here_prefix. split.
    + intros [[post H]|[pre [post H]]].
      * exists EmptyString, post. exact H.
      * exists (String (lower d) pre), post. simpl. rewrite H. reflexivity.
    + intros [pre [post H]]. destruct pre as [|x pre].
      * left. exists post. exact H.
      * right. simpl in H. injection H as _ H. exists pre, post. exact H.
Qed.

(** ** The session filter *)

Lemma filter_sessions_run rows id_sub re start_date end_date w :
  re_compile id_sub = Some re ->
  filter_sessions rows id_sub start_date end_date w =
  (Ok (filter (keep_row re start_date end_date) rows), w).
Proof.
  intros Hre. unfold filter_sessions, str_contains, bind. rewrite Hre.
  unfold ret. f_equal. f_equal.
  rewrite map_map.
  rewrite (series_and_map
             (fun r => match id_chip_name r with
                       | None => false
                       | Some s => re_search re s
                       end)
             (fun r => (start r >=? start_date)%Z) rows).
  rewrite (series_and_map _ (fun r => (end_ r <=? end_date)%Z) rows).
  apply (boolean_index_map (keep_row re start_date end_date)).
Qed.

Lemma filter_sessions_inv (rows fd : DataFrame) (id_sub : string)
    (start_date end_date : Z) (w w' : World) :
  filter_sessions rows id_sub start_date end_date w = (Ok fd, w') ->
  exists re,
    re_compile id_sub = Some re /\
    fd = filter (keep_row re start_date end_date) rows /\ w' = w.
Proof.
  intros H.
  destruct (re_compile id_sub) as [re|] eqn:Hre.
  - rewrite (filter_sessions_run rows id_sub start_date end_date w Hre) in H.
    injection H as <- <-. exists re. repeat split.
  - unfold filter_sessions, str_contains, bind in H. rewrite Hre in H.
    discriminate.
Qed.

Lemma keep_row_retained id_sub start_date end_date r :
  keep_row (lits id_sub) start_date end_date r = true <->
  retained id_sub start_date end_date r.
Proof.
  unfold keep_row, retained.
  rewrite !andb_true_iff, Z.geb_le, Z.leb_le.
  destruct (id_chip_name r) as [s|].
  - rewrite re_search_contains. split.
    + intros [[H1 H2] H3]. split; [exists s; split; [reflexivity|exact H1]|lia].
    + intros [[s' [Hs H1]] H2]. injection Hs as <-. repeat split; [exact H1|lia|lia].
  - split.
    + intros [[H _] _]. discriminate.
    + intros [[s [Hs _]] _]. discriminate.
Qed.

(** C7, amended: the text typed for the identifier is searched as a regular
    expression.  When it has no special character, the filter returns, in
    their original order, exactly the sessions whose identifier is present
    and contains the text case-insensitively, that start no earlier than the
    start date and end no later than the end date. *)
Theorem filter_sessions_ordinary (rows : DataFrame) (id_sub : string)
    (start_date end_date : Z) (w : World) :
  ordinary id_sub = true ->
  exists keep : Session -> bool,
    (forall r, keep r = true <-> retained id_sub start_date end_date r) /\
    filter_sessions rows id_sub start_date end_date w = (Ok (filter keep rows), w).
Proof.
  intros Hord.
  exists (keep_row (lits id_sub) start_date end_date). split.
  - intros r. apply keep_row_retained.
  - apply filter_sessions_run. apply re_compile_ordinary. exact Hord.
Qed.

(** The text ["volvo"] retains the session tagged ["VolvoXC40"]. *)
Lemma filter_sessions_ordinary_witness :
  ordinary "volvo" = true /\
  exists keep : Session -> bool,
    (forall r, keep r = true <->
               retained "volvo" (clock_time 0 0) (clock_time 24 0) r) /\
    filter_sessions [volvo_session] "volvo" (clock_time 0 0) (clock_time 24 0)
                    empty_world
    = (Ok (filter keep [volvo_session]), empty_world).
Proof.
  split.
  - reflexivity.
  - apply (filter_sessions_ordinary [volvo_session] "volvo"
             (clock_time 0 0) (clock_time 24 0) empty_world).
    reflexivity.
Defined.

(** C7 as stated fails: the text ["."] retains the session tagged
    ["VolvoXC40"], whose identifier does not contain a full stop. *)
Lemma filter_sessions_regex_counterexample :
  filter_sessions [volvo_session] "." (clock_time 0 0) (clock_time 24 0) empty_world
  = (Ok [volvo_session], empty_world) /\
  ~ retained "." (clock_time 0 0) (clock_time 24 0) volvo_session.
Proof.
  split.
  - reflexivity.
  - intros [[s [Hs Hc]] _]. injection Hs as <-.
    apply re_search_contains in Hc. vm_compute in Hc. discriminate.
Qed.

(** ** Running the pricing steps *)

Lemma apply_rows_prices (df : TibberDf) (rows : DataFrame) (w : World) :
  apply_rows (fun row => calculate_tibber_price (start row) (end_ row) (Some df)) rows w
  = (Ok (map (fun r => effectivePrice df (start r) (end_ r)) rows),
     emit (diagnostics df rows) w).
Proof.
  revert w. induction rows as [|r rows IH]; intros w; cbn [apply_rows].
  - unfold ret. rewrite emit_nil. reflexivity.
  - unfold bind at 1. rewrite calculate_tibber_price_run.
    cbn [diagnostics flat_map map].
    unfold bind at 1. rewrite IH. unfold ret.
    rewrite emit_emit. reflexivity.
Qed.

Lemma set_Tibber_Price_map (f : Session -> Q) (rows : DataFrame) :
  set_Tibber_Price rows (map f rows) = map (fun r => with_Tibber_Price r (f r)) rows.
Proof.
  induction rows as [|r rows IH]; simpl; [reflexivity|].
  rewrite IH. reflexivity.
Qed.

Lemma set_Total_Cost_map (g : Session -> Session) (f : Session -> Q) (rows : DataFrame) :
  set_Total_Cost (map g rows) (series_mul (map energy (map g rows)) (map f rows))
  = map (fun r => with_Total_Cost (g r) (energy (g r) * f r)) rows.
Proof.
  induction rows as [|r rows IH]; simpl; [reflexivity|].
  rewrite IH. reflexivity.
Qed.

Lemma series_mul_map (g : Session -> Session) (f : Session -> Q) (rows : DataFrame) :
  series_mul (map energy (map g rows)) (map f rows)
  = map (fun r => energy (g r) * f r) rows.
Proof.
  induction rows as [|r rows IH]; simpl; [reflexivity|].
  rewrite IH. reflexivity.
Qed.

Lemma get_column_map (col : Session -> option Q) (g : Session -> Session)
    (h : Session -> Q) (rows : DataFrame) (w : World) :
  (forall r, col (g r) = Some (h r)) ->
  get_column col (map g rows) w = (Ok (map h rows), w).
Proof.
  intros Hcol. unfold get_column.
  induction rows as [|r rows IH]; simpl; [reflexivity|].
  unfold bind at 1. rewrite Hcol. simpl.
  unfold bind at 1. rewrite IH. reflexivity.
Qed.

Lemma apply_rows_report_row (d : nat) (df : TibberDf) (rows : DataFrame) (w : World) :
  apply_rows (report_row d) (map (priced df) rows) w
  = (Ok (map (shown_row d df) rows), w).
Proof.
  induction rows as [|r rows IH]; simpl; [reflexivity|].
  unfold bind at 1. simpl. unfold bind at 1. rewrite IH. reflexivity.
Qed.

Lemma DataFrame_apply_prices (df : TibberDf) (rows : DataFrame) (w : World) :
  rows <> [] ->
  DataFrame_apply (fun row => calculate_tibber_price (start row) (end_ row) (Some df))
                  rows w
  = (Ok (AsSeries (map (fun r => effectivePrice df (start r) (end_ r)) rows)),
     emit (diagnostics df rows) w).
Proof.
  intros Hne. destruct rows as [|r rows]; [congruence|].
  unfold DataFrame_apply. unfold bind at 1. rewrite apply_rows_prices. reflexivity.
Qed.

Lemma process_data_with_filters_run (rows : DataFrame) (df : TibberDf)
    (id_sub : string) (re : list atom) (start_date end_date : Z)
    (a : Address) (o : Owner) (w : World) :
  re_compile id_sub = Some re ->
  filter (keep_row re start_date end_date) rows <> [] ->
  let fd := filter (keep_row re start_date end_date) rows in
  process_data_with_filters (Some rows) (Some df) id_sub start_date end_date
                            (Some a) (Some o) w
  = (Ok (mkSummary (map (priced df) fd)
                   (series_sum (map energy fd))
                   (series_sum (map (fun r => energy r * effectivePrice df (start r) (end_ r)) fd))),
     after_reports df fd start_date end_date a o w).
Proof.
  intros Hre Hne fd.
  unfold process_data_with_filters.
  unfold bind at 1. rewrite (filter_sessions_run rows id_sub start_date end_date w Hre).
  fold fd.
  unfold bind at 1. unfold print at 1. cbn beta iota.
  unfold bind at 1. rewrite (DataFrame_apply_prices df _ Hne).
  unfold bind at 1. unfold loc_set_Tibber_Price, ret at 1. cbv zeta.
  fold fd.
  set (p := fun r : Session => effectivePrice df (start r) (end_ r)).
  rewrite (set_Tibber_Price_map p fd).
  unfold bind at 1. rewrite (get_column_map Tibber_Price _ p fd) by reflexivity.
  rewrite (set_Total_Cost_map _ p fd).
  unfold bind at 1. rewrite (get_column_map Tibber_Price _ p fd) by reflexivity.
  unfold bind at 1. unfold print at 1. cbn beta iota.
  unfold bind at 1. rewrite (get_column_map Tibber_Price _ p fd) by reflexivity.
  rewrite (set_Total_Cost_map _ p fd).
  unfold bind at 1.
  rewrite (get_column_map Total_Cost _ (fun r => energy r * p r) fd) by reflexivity.
  rewrite !map_map. simpl.
  change (map (fun x => with_Total_Cost
                          (with_Total_Cost (with_Tibber_Price x (p x)) (energy x * p x))
                          (energy x * p x)) fd)
    with (map (priced df) fd).
  subst p.
  unfold generate_excel_report, generate_pdf_report, generate_report.
  unfold bind, print, write_report, ret. simpl.
  rewrite !apply_rows_report_row. simpl.
  rewrite length_map.
  f_equal. unfold after_reports. f_equal.
  - rewrite <- !app_assoc. reflexivity.
  - rewrite <- app_assoc. reflexivity.
Qed.

Lemma export_table_with_prices_run (rows : DataFrame) (df : TibberDf) (w : World) :
  rows <> [] ->
  export_table_with_prices (Some rows) (Some df) w
  = (Ok (map (exported df) rows),
     mkWorld (stdout w ++ diagnostics df rows ++ [CsvExportCompleted])
             (cache_file w) (Some (map (exported df) rows)) (report_files w)).
Proof.
  intros Hne.
  unfold export_table_with_prices.
  unfold bind at 1. rewrite (DataFrame_apply_prices df w Hne).
  unfold bind at 1. unfold setitem_Tibber_Price, ret at 1. cbv zeta.
  set (p := fun r : Session => effectivePrice df (start r) (end_ r)).
  rewrite (set_Tibber_Price_map p rows).
  unfold bind at 1. rewrite (get_column_map Tibber_Price _ p rows) by reflexivity.
  rewrite (set_Total_Cost_map _ p rows).
  rewrite map_map. subst p.
  unfold bind, to_csv, print, ret. simpl.
  rewrite <- app_assoc. reflexivity.
Qed.

Lemma Forall2_map_right {A B} (P : A -> B -> Prop) (f : A -> B) (l : list A) :
  (forall x, P x (f x)) -> Forall2 P l (map f l).
Proof.
  intros H. induction l as [|x l IH]; simpl; constructor; auto.
Qed.

(** ** Totals *)

(** C3, amended: when the filter retains at least one session, the totals
    handed to the reports are the sum of the [energy] column of the retained
    rows and the sum of their ['Total Cost [EUR]'] column, and that column
    holds the products energy x price as computed: no per-row rounding
    precedes the sum.  Each report prints the totals rounded to 2 decimals. *)
Theorem process_data_with_filters_totals (rows : DataFrame) (df : TibberDf)
    (id_sub : string) (start_date end_date : Z)
    (a : Address) (o : Owner) (w : World) (r0 : Session) (fd : DataFrame) :
  filter_sessions rows id_sub start_date end_date w = (Ok (r0 :: fd), w) ->
  exists s w',
    process_data_with_filters (Some rows) (Some df) id_sub start_date end_date
                              (Some a) (Some o) w = (Ok s, w') /\
    total_energy s == sum_Q (map energy (filtered_data s)) /\
    total_cost s == sum_Q (map row_cost (filtered_data s)) /\
    Forall2 (fun r r' =>
               energy r' = energy r /\
               Tibber_Price r' = Some (effectivePrice df (start r) (end_ r)) /\
               Total_Cost r'
               = Some (energy r * effectivePrice df (start r) (end_ r)))
            (r0 :: fd) (filtered_data s) /\
    exists xls pdf,
      report_files w' = report_files w ++ [xls; pdf] /\
      r_total_energy xls = round_dec 2 (total_energy s) /\
      r_total_cost xls = round_dec 2 (total_cost s) /\
      r_total_energy pdf = round_dec 2 (total_energy s) /\
      r_total_cost pdf = round_dec 2 (total_cost s).
Proof.
  intros Hf.
  destruct (@filter_sessions_inv _ _ _ _ _ _ _ Hf) as [re [Hre [Hfd _]]].
  assert (Hne : filter (keep_row re start_date end_date) rows <> [])
    by (rewrite <- Hfd; discriminate).
  rewrite (process_data_with_filters_run rows df id_sub start_date end_date a o w
             Hre Hne).
  rewrite <- Hfd.
  eexists; eexists; split; [reflexivity|].
  cbn [filtered_data total_energy total_cost].
  rewrite !map_map.
  repeat split.
  - apply series_sum_sum_Q.
  - apply series_sum_sum_Q.
  - apply Forall2_map_right. intros r. repeat split.
  - eexists; eexists; repeat split; reflexivity.
Qed.

(** Two sessions of 10 kWh at 0.2996: the total cost is 5.992. *)
Lemma process_data_with_filters_totals_witness :
  filter_sessions two_sessions "volvo" (clock_time 0 0) (clock_time 24 0) empty_world
  = (Ok (volvo_session_a :: [volvo_session_b]), empty_world) /\
  exists s w',
    process_data_with_filters (Some two_sessions) (Some one_price) "volvo"
                              (clock_time 0 0) (clock_time 24 0)
                              (Some home) (Some resident) empty_world = (Ok s, w') /\
    total_energy s == sum_Q (map energy (filtered_data s)) /\
    total_cost s == sum_Q (map row_cost (filtered_data s)) /\
    Forall2 (fun r r' =>
               energy r' = energy r /\
               Tibber_Price r' = Some (effectivePrice one_price (start r) (end_ r)) /\
               Total_Cost r'
               = Some (energy r * effectivePrice one_price (start r) (end_ r)))
            (volvo_session_a :: [volvo_session_b]) (filtered_data s) /\
    exists xls pdf,
      report_files w' = report_files empty_world ++ [xls; pdf] /\
      r_total_energy xls = round_dec 2 (total_energy s) /\
      r_total_cost xls = round_dec 2 (total_cost s) /\
      r_total_energy pdf = round_dec 2 (total_energy s) /\
      r_total_cost pdf = round_dec 2 (total_cost s).
Proof.
  split.
  - reflexivity.
  - exact (@process_data_with_filters_totals two_sessions one_price "volvo"
             (clock_time 0 0) (clock_time 24 0) home resident empty_world
             volvo_session_a [volvo_session_b] eq_refl).
Defined.

Lemma two_sessions_retained :
  filter (keep_row (lits "volvo") (clock_time 0 0) (clock_time 24 0)) two_sessions
  <> [].
Proof. vm_compute. discriminate. Qed.

(** C3 as stated fails: for two sessions of 10 kWh at 0.2996 the total cost
    is 5.992, printed 5.99, while the rounded per-row costs, 3.00 each, sum
    to 6.00. *)
Lemma total_cost_not_rounded_counterexample :
  exists s w',
    process_data_with_filters (Some two_sessions) (Some one_price) "volvo"
                              (clock_time 0 0) (clock_time 24 0)
                              (Some home) (Some resident) empty_world = (Ok s, w') /\
    total_cost s == 5992 # 1000 /\
    rounded_then_summed (filtered_data s) == 6 /\
    ~ total_cost s == rounded_then_summed (filtered_data s) /\
    ~ round_dec 2 (total_cost s) == rounded_then_summed (filtered_data s).
Proof.
  rewrite (process_data_with_filters_run two_sessions one_price "volvo"
             (re := lits "volvo") (clock_time 0 0) (clock_time 24 0)
             home resident empty_world eq_refl two_sessions_retained).
  eexists; eexists; split; [reflexivity|].
  repeat split; vm_compute; congruence.
Qed.

(** ** Rounding of the per-row cost *)

Lemma round_dec_hundredths (q : Q) : exists z, round_dec 2 q == inject_Z z / 100.
Proof.
  exists (rint (q * inject_Z (10 ^ Z.of_nat 2))). unfold round_dec. reflexivity.
Qed.

(** C8, amended: on a frame with at least one session the CSV export prices
    every session, multiplies its energy by the effective price, both as
    computed, and only then rounds the product to 2 decimals: the stored cost
    is a whole number of hundredths, and the rounded rows are the content of
    the CSV file.  The filtering and aggregation step stores, for every
    session it retains, the product energy x effective price as computed,
    without rounding it. *)
Theorem total_cost_rounded_after_product (rows : DataFrame) (df : TibberDf) (w : World) :
  rows <> [] ->
  (exists out w',
      export_table_with_prices (Some rows) (Some df) w = (Ok out, w') /\
      csv_file w' = Some out /\
      Forall2 (fun r r' =>
                 exists c',
                   Total_Cost r' = Some c' /\
                   c' = round_dec 2 (energy r * effectivePrice df (start r) (end_ r)) /\
                   exists z, c' == inject_Z z / 100)
              rows out) /\
  (forall id_sub start_date end_date a o r0 fd,
      filter_sessions rows id_sub start_date end_date w = (Ok (r0 :: fd), w) ->
      exists s w',
        process_data_with_filters (Some rows) (Some df) id_sub start_date end_date
                                  (Some a) (Some o) w = (Ok s, w') /\
        Forall2 (fun r r' =>
                   Total_Cost r'
                   = Some (energy r * effectivePrice df (start r) (end_ r)))
                (r0 :: fd) (filtered_data s)).
Proof.
  intros Hrows. split.
  - rewrite (export_table_with_prices_run df w Hrows).
    eexists; eexists; split; [reflexivity|]. split; [reflexivity|].
    apply Forall2_map_right. intros r.
    eexists. split; [reflexivity|]. split; [reflexivity|].
    apply round_dec_hundredths.
  - intros id_sub start_date end_date a o r0 fd Hf.
    destruct (@filter_sessions_inv _ _ _ _ _ _ _ Hf) as [re [Hre [Hfd _]]].
    assert (Hne : filter (keep_row re start_date end_date) rows <> [])
      by (rewrite <- Hfd; discriminate).
    rewrite (process_data_with_filters_run rows df id_sub start_date end_date a o w
               Hre Hne).
    rewrite <- Hfd.
    do 2 eexists. split; [reflexivity|].
    cbn [filtered_data].
    apply Forall2_map_right; intros r; reflexivity.
Qed.

(** The two sessions of 10 kWh at 0.2996. *)
Lemma total_cost_rounded_after_product_witness :
  two_sessions <> [] /\
  (exists out w',
      export_table_with_prices (Some two_sessions) (Some one_price) empty_world
      = (Ok out, w') /\
      csv_file w' = Some out /\
      Forall2 (fun r r' =>
                 exists c',
                   Total_Cost r' = Some c' /\
                   c' = round_dec 2 (energy r
                                     * effectivePrice one_price (start r) (end_ r)) /\
                   exists z, c' == inject_Z z / 100)
              two_sessions out) /\
  (forall id_sub start_date end_date a o r0 fd,
      filter_sessions two_sessions id_sub start_date end_date empty_world
      = (Ok (r0 :: fd), empty_world) ->
      exists s w',
        process_data_with_filters (Some two_sessions) (Some one_price) id_sub
                                  start_date end_date (Some a) (Some o) empty_world
        = (Ok s, w') /\
        Forall2 (fun r r' =>
                   Total_Cost r'
                   = Some (energy r * effectivePrice one_price (start r) (end_ r)))
                (r0 :: fd) (filtered_data s)).
Proof.
  assert (H : two_sessions <> []) by discriminate.
  split.
  - exact H.
  - exact (@total_cost_rounded_after_product two_sessions one_price empty_world H).
Defined.

(** C8 as stated fails: for a session of 10 kWh at 0.2996 the filtering and
    aggregation step stores the cost 2.996, which is not the product rounded
    to 2 decimals, 3.00. *)
Lemma total_cost_stored_unrounded_counterexample :
  exists s w' r' rest,
    process_data_with_filters (Some two_sessions) (Some one_price) "volvo"
                              (clock_time 0 0) (clock_time 24 0)
                              (Some home) (Some resident) empty_world = (Ok s, w') /\
    filtered_data s = r' :: rest /\
    energy r' == 10 /\
    Tibber_Price r' = Some (effectivePrice one_price (start r') (end_ r')) /\
    effectivePrice one_price (start r') (end_ r') == 2996 # 10000 /\
    row_cost r' == 2996 # 1000 /\
    round_dec 2 (energy r' * effectivePrice one_price (start r') (end_ r')) == 3 /\
    ~ row_cost r'
      == round_dec 2 (energy r' * effectivePrice one_price (start r') (end_ r')).
Proof.
  rewrite (process_data_with_filters_run two_sessions one_price "volvo"
             (re := lits "volvo") (clock_time 0 0) (clock_time 24 0)
             home resident empty_world eq_refl two_sessions_retained).
  do 4 eexists. split; [reflexivity|]. split; [reflexivity|].
  repeat split; vm_compute; congruence.
Qed.

(** ** Fields of a session across the pricing steps *)

(** C9, amended: on a frame with at least one session the CSV export adds
    the two derived fields and rounds the energy of every session to 2
    decimals in the frame it is given; start, end, identifier and the other
    columns are unchanged.  The filtering and aggregation step adds the two
    derived fields to the sessions it retains and leaves their start, end,
    energy, identifier and other columns as they are. *)
Theorem pricing_frame (rows : DataFrame) (df : TibberDf) (w : World) :
  rows <> [] ->
  (exists out w',
      export_table_with_prices (Some rows) (Some df) w = (Ok out, w') /\
      Forall2 (fun r r' =>
                 same_passthrough r r' /\
                 energy r' = round_dec 2 (energy r) /\
                 Tibber_Price r' <> None /\ Total_Cost r' <> None)
              rows out) /\
  (forall id_sub start_date end_date a o r0 fd,
      filter_sessions rows id_sub start_date end_date w = (Ok (r0 :: fd), w) ->
      exists s w',
        process_data_with_filters (Some rows) (Some df) id_sub start_date end_date
                                  (Some a) (Some o) w = (Ok s, w') /\
        Forall2 (fun r r' =>
                   same_passthrough r r' /\
                   energy r' = energy r /\
                   Tibber_Price r' <> None /\ Total_Cost r' <> None)
                (r0 :: fd) (filtered_data s)).
Proof.
  intros Hrows. split.
  - rewrite (export_table_with_prices_run df w Hrows).
    eexists; eexists; split; [reflexivity|].
    apply Forall2_map_right. intros r.
    unfold same_passthrough; simpl. repeat split; discriminate.
  - intros id_sub start_date end_date a o r0 fd Hf.
    destruct (@filter_sessions_inv _ _ _ _ _ _ _ Hf) as [re [Hre [Hfd _]]].
    assert (Hne : filter (keep_row re start_date end_date) rows <> [])
      by (rewrite <- Hfd; discriminate).
    rewrite (process_data_with_filters_run rows df id_sub start_date end_date a o w
               Hre Hne).
    rewrite <- Hfd.
    eexists; eexists; split; [reflexivity|]. cbn [filtered_data].
    apply Forall2_map_right. intros r.
    unfold same_passthrough; simpl. repeat split; discriminate.
Qed.

Lemma pricing_frame_witness :
  [fine_session] <> [] /\
  (exists out w',
      export_table_with_prices (Some [fine_session]) (Some one_price) empty_world
      = (Ok out, w') /\
      Forall2 (fun r r' =>
                 same_passthrough r r' /\
                 energy r' = round_dec 2 (energy r) /\
                 Tibber_Price r' <> None /\ Total_Cost r' <> None)
              [fine_session] out) /\
  (forall id_sub start_date end_date a o r0 fd,
      filter_sessions [fine_session] id_sub start_date end_date empty_world
      = (Ok (r0 :: fd), empty_world) ->
      exists s w',
        process_data_with_filters (Some [fine_session]) (Some one_price) id_sub
                                  start_date end_date (Some a) (Some o) empty_world
        = (Ok s, w') /\
        Forall2 (fun r r' =>
                   same_passthrough r r' /\
                   energy r' = energy r /\
                   Tibber_Price r' <> None /\ Total_Cost r' <> None)
                (r0 :: fd) (filtered_data s)).
Proof.
  assert (H : [fine_session] <> []) by discriminate.
  split.
  - exact H.
  - exact (@pricing_frame [fine_session] one_price empty_world H).
Defined.

(** C9 as stated fails: the CSV export turns an energy of 1.004 kWh into
    1.00 kWh in the frame that the rest of the run uses. *)
Lemma export_rounds_energy_counterexample :
  exists r' w',
    export_table_with_prices (Some [fine_session]) (Some one_price) empty_world
    = (Ok [r'], w') /\
    energy fine_session == 1004 # 1000 /\
    energy r' == 1 /\
    ~ energy r' == energy fine_session.
Proof.
  assert (H : [fine_session] <> []) by discriminate.
  pose proof (export_table_with_prices_run one_price empty_world H) as E.
  eexists; eexists; split; [exact E|].
  repeat split; vm_compute; congruence.
Qed.

(** ** What touches the cache file *)

Create HintDb keeps discriminated.

(** A step that prints nothing and leaves the cache file as it is. *)
Ltac silent_step :=
  intros w; simpl; split; [reflexivity|]; exists []; symmetry; apply app_nil_r.

Lemma keeps_ret {A} (a : A) : keeps_cache (ret a).
Proof. silent_step. Qed.

Lemma keeps_raise {A} (e : exn) : keeps_cache (@raise A e).
Proof. silent_step. Qed.

Lemma keeps_unmodelled {A} : keeps_cache (@unmodelled A).
Proof. silent_step. Qed.

Lemma keeps_print (m : Message) : keeps_cache (print m).
Proof. intros w; simpl. split; [reflexivity|]. exists [m]. reflexivity. Qed.

Lemma keeps_to_csv (df : DataFrame) : keeps_cache (to_csv df).
Proof. silent_step. Qed.

Lemma keeps_write_report (r : Report) : keeps_cache (write_report r).
Proof. silent_step. Qed.

Lemma keeps_bind {A B} (m : M A) (k : A -> M B) :
  keeps_cache m -> (forall a, keeps_cache (k a)) -> keeps_cache (bind m k).
Proof.
  intros Hm Hk w. unfold bind.
  destruct (Hm w) as [Hc [l Hl]].
  destruct (m w) as [[a|e|] w1]; simpl in *.
  - destruct (Hk a w1) as [Hc' [l' Hl']].
    split; [congruence|].
    exists (l ++ l'). rewrite Hl', Hl, app_assoc. reflexivity.
  - split; [exact Hc|]. exists l. exact Hl.
  - split; [exact Hc|]. exists l. exact Hl.
Qed.

#[local] Hint Resolve keeps_ret keeps_raise keeps_unmodelled keeps_print
  keeps_to_csv keeps_write_report keeps_bind : keeps.

Lemma keeps_apply_rows {A B} (f : A -> M B) (rows : list A) :
  (forall r, keeps_cache (f r)) -> keeps_cache (apply_rows f rows).
Proof.
  intros Hf. induction rows as [|r rows IH]; simpl; auto 6 with keeps.
Qed.

Lemma keeps_calculate_tibber_price start_time end_time tibber_df :
  keeps_cache (calculate_tibber_price start_time end_time tibber_df).
Proof.
  unfold calculate_tibber_price.
  destruct tibber_df as [df|]; [|auto with keeps].
  destruct (price_during_session start_time end_time df); auto with keeps.
Qed.

Lemma keeps_DataFrame_apply (f : Session -> M Q) (df : DataFrame) :
  (forall r, keeps_cache (f r)) -> keeps_cache (DataFrame_apply f df).
Proof.
  intros Hf. unfold DataFrame_apply.
  destruct df; auto using keeps_apply_rows with keeps.
Qed.

Lemma keeps_setitem_Tibber_Price df applied :
  keeps_cache (setitem_Tibber_Price df applied).
Proof. destruct applied; simpl; auto with keeps. Qed.

Lemma keeps_loc_set_Tibber_Price has_column df applied :
  keeps_cache (loc_set_Tibber_Price has_column df applied).
Proof. destruct applied, has_column; simpl; auto with keeps. Qed.

#[local] Hint Resolve keeps_apply_rows keeps_calculate_tibber_price
  keeps_DataFrame_apply keeps_setitem_Tibber_Price
  keeps_loc_set_Tibber_Price : keeps.

Lemma keeps_get_item (v : option Q) : keeps_cache (get_item v).
Proof. destruct v; simpl; auto with keeps. Qed.

Lemma keeps_get_column col df : keeps_cache (get_column col df).
Proof. unfold get_column. auto using keeps_get_item with keeps. Qed.

#[local] Hint Resolve keeps_get_item keeps_get_column : keeps.

Lemma keeps_export_table_with_prices wallbox_data tibber_df :
  keeps_cache (export_table_with_prices wallbox_data tibber_df).
Proof.
  unfold export_table_with_prices.
  destruct wallbox_data as [rows|]; auto 8 with keeps.
Qed.

Lemma keeps_generate_report kind d fd start_date end_date te tc address owner :
  keeps_cache (generate_report kind d fd start_date end_date te tc address owner).
Proof.
  unfold generate_report, report_row.
  destruct address, owner; auto 8 with keeps.
Qed.

#[local] Hint Resolve keeps_generate_report : keeps.

Lemma keeps_filter_sessions rows id_sub start_date end_date :
  keeps_cache (filter_sessions rows id_sub start_date end_date).
Proof.
  unfold filter_sessions, str_contains.
  destruct (re_compile id_sub); auto with keeps.
Qed.

#[local] Hint Resolve keeps_filter_sessions : keeps.

Lemma keeps_process_data_with_filters wallbox_data tibber_df id_sub
    start_date end_date address owner :
  keeps_cache (process_data_with_filters wallbox_data tibber_df id_sub
                                         start_date end_date address owner).
Proof.
  unfold process_data_with_filters, generate_excel_report, generate_pdf_report.
  destruct wallbox_data as [rows|]; [|auto with keeps].
  repeat (apply keeps_bind; [auto with keeps|intros ?]).
  auto with keeps.
Qed.

Lemma bind_then_keeps {A B} (m : M A) (k : A -> M B) (w w1 : World) (a : A) :
  m w = (Ok a, w1) ->
  keeps_cache (k a) ->
  cache_file (snd (bind m k w)) = cache_file w1 /\
  exists l, stdout (snd (bind m k w)) = stdout w1 ++ l.
Proof.
  intros Hm Hk. unfold bind. rewrite Hm. apply Hk.
Qed.

(** The steps of [main] after the data is at hand leave the cache file
    alone. *)
Lemma keeps_main_rest (env : Env)
    (data : option DataFrame * option TibberDf * option Address * option Owner) :
  keeps_cache
    (let '(wallbox_data, tibber_df, address, owner) := data in
     print ExportingCsv ;;;
     wallbox_data <- export_table_with_prices wallbox_data tibber_df ;;
     let id_chip_name_arg := input_id_chip_name env in
     let start_date := input_start_date env in
     let end_date := input_end_date env in
     print (ProcessingData id_chip_name_arg start_date end_date) ;;;
     process_data_with_filters (Some wallbox_data) tibber_df id_chip_name_arg
                               start_date end_date address owner ;;;
     print ReportsSuccess).
Proof.
  destruct data as [[[wallbox_data tibber_df] address] owner].
  pose proof keeps_export_table_with_prices.
  pose proof keeps_process_data_with_filters.
  auto 10 with keeps.
Qed.

(** ** The cache file across a run *)

(** With no cache file, [main] retrieves and, unless the Tibber answer
    holds no node, saves what the two retrievals returned and goes on. *)
Lemma main_absent (env : Env) (w : World) :
  cache_file w = Absent ->
  exists r w' rest,
    main env w = (r, w') /\
    stdout w' = stdout w ++ FetchingNewData :: rest /\
    match tibber_api env with
    | Response ([], _, _) => r = Raise KeyError /\ cache_file w' = Absent
    | _ => cache_file w' = Pickled (saved_entry env)
    end.
Proof.
  intros Habs.
  remember (main env w) as res eqn:E.
  assert (H : match tibber_api env with
              | Response ([], _, _) =>
                  fst res = Raise KeyError /\ cache_file (snd res) = Absent
              | _ => cache_file (snd res) = Pickled (saved_entry env)
              end /\
              exists l, stdout (snd res) = stdout w ++ FetchingNewData :: l).
  { unfold main in E. unfold bind at 1 in E. unfold is_cache_valid in E.
    rewrite Habs in E. unfold saved_entry.
    revert E.
    destruct (wallbox_api env) as [[[wd wa] wo]|],
             (tibber_api env) as [[[[|p td] ta] to_]|];
      intros E;
      try (subst res; simpl; rewrite Habs; repeat split;
           repeat rewrite <- app_assoc; simpl; eexists; reflexivity);
      (match type of E with
       | _ = bind ?m ?k w =>
           edestruct (@bind_then_keeps _ _ m k w) as [Hc [l Hl]];
           [reflexivity | apply (keeps_main_rest env) |]
       end;
       rewrite <- E in Hc, Hl;
       rewrite Hc, Hl; simpl; split; [reflexivity|];
       repeat rewrite <- app_assoc; simpl; eexists; reflexivity). }
  destruct H as [Hc [l Hl]].
  exists (fst res), (snd res), l.
  split; [apply surjective_pairing|]. split; [exact Hl|].
  destruct (tibber_api env) as [[[[|p td] ta] to_]|]; exact Hc.
Qed.

(** C10, amended: with no cache file the freshness check answers [False]
    and the run goes on to retrieve fresh data.  When the Tibber answer
    holds at least one node, or the Tibber request fails, the run saves what
    was retrieved; when the answer holds no node the run ends with
    [KeyError] and still has no cache file.  A cache file that cannot be
    read back makes the freshness check raise, and the run ends there with
    that exception, before any retrieval. *)
Theorem cache_absent_is_a_miss (env : Env) (w : World) :
  (cache_file w = Absent ->
   is_cache_valid (now env) w = (Ok false, w) /\
   exists r w' rest,
     main env w = (r, w') /\
     stdout w' = stdout w ++ FetchingNewData :: rest /\
     match tibber_api env with
     | Response ([], _, _) => r = Raise KeyError /\ cache_file w' = Absent
     | _ => cache_file w' = Pickled (saved_entry env)
     end) /\
  (forall e,
      cache_file w = Corrupt e ->
      is_cache_valid (now env) w = (Raise e, w) /\
      main env w = (Raise e, w)).
Proof.
  split.
  - intros Hc. split.
    + unfold is_cache_valid. rewrite Hc. reflexivity.
    + apply main_absent. exact Hc.
  - intros e Hc.
    assert (Hv : is_cache_valid (now env) w = (Raise e, w)).
    { unfold is_cache_valid. rewrite Hc. reflexivity. }
    split; [exact Hv|].
    unfold main. unfold bind at 1. rewrite Hv. reflexivity.
Qed.

Lemma cache_absent_is_a_miss_witness :
  cache_file empty_world = Absent /\
  is_cache_valid (now both_up_later) empty_world = (Ok false, empty_world) /\
  exists r w' rest,
    main both_up_later empty_world = (r, w') /\
    stdout w' = stdout empty_world ++ FetchingNewData :: rest /\
    cache_file w' = Pickled (saved_entry both_up_later).
Proof.
  split.
  - reflexivity.
  - apply (proj1 (cache_absent_is_a_miss both_up_later empty_world)).
    reflexivity.
Defined.

(** C10 as stated fails: on a cache file that cannot be unpickled the
    freshness check does not answer, and the run ends with the error,
    nothing retrieved. *)
Lemma corrupt_cache_counterexample :
  cache_file corrupt_world = Corrupt UnpicklingError /\
  is_cache_valid (now both_up_later) corrupt_world
  = (Raise UnpicklingError, corrupt_world) /\
  fst (is_cache_valid (now both_up_later) corrupt_world) <> Ok false /\
  main both_up_later corrupt_world = (Raise UnpicklingError, corrupt_world).
Proof.
  repeat split; try reflexivity. discriminate.
Qed.

(** ** A failed retrieval *)

(** C4, on a run whose Wallbox request fails: the error is logged, the
    Tibber data is still retrieved, a cache entry holding [None] for the
    sessions is saved, and only then the run ends, with the
    [AttributeError] of the CSV export; no CSV file and no report is
    written. *)
Theorem main_wallbox_down :
  main wallbox_down empty_world
  = (Raise AttributeError,
     mkWorld [FetchingNewData; LogError Wallbox; ExportingCsv]
             (Pickled (mkCache (clock_time 12 0) None (Some one_price)
                               (Some home) (Some resident)))
             None []).
Proof. reflexivity. Qed.

(** C5, on the same run and on one whose Tibber request fails: the saved
    entry lacks the sessions, respectively the price table, the address and
    the owner; a run within the hour takes the entry for fresh, reads it back,
    and ends with the [TypeError] of [load_cache]. *)
Theorem partial_cache_entry_saved_and_read_back :
  let w1 := snd (main wallbox_down empty_world) in
  let w2 := snd (main tibber_down empty_world) in
  (exists c, cache_file w1 = Pickled c /\
             c_wallbox_data c = None /\ c_tibber_data c = Some one_price) /\
  (exists c, cache_file w2 = Pickled c /\
             c_wallbox_data c = Some two_sessions /\ c_tibber_data c = None /\
             c_address c = None /\ c_owner c = None) /\
  is_cache_valid (now both_up_later) w1 = (Ok true, w1) /\
  load_cache w1 = (Raise TypeError, w1) /\
  main both_up_later w1 = (Raise TypeError, emit [UsingCachedData] w1) /\
  main both_up_later w2 = (Raise TypeError, emit [UsingCachedData] w2).
Proof.
  repeat split; try reflexivity; eexists; repeat split; reflexivity.
Qed.

(** ** Whole runs *)

(** The end-to-end scenario of the specification: the session is priced at
    0.35 and costs 3.50, in the CSV file and in both reports. *)
Example main_scenario :
  exists w' row xls pdf shown shown',
    main (scenario "volvo") empty_world = (Ok tt, w') /\
    cache_file w' = Pickled (saved_entry (scenario "volvo")) /\
    csv_file w' = Some [row] /\
    row_cost row == 350 # 100 /\
    report_files w' = [xls; pdf] /\
    r_rows xls = [shown] /\ r_rows pdf = [shown'] /\
    rr_price shown == 35 # 100 /\ rr_cost shown == 350 # 100 /\
    rr_price shown' == 35 # 100 /\ rr_cost shown' == 350 # 100 /\
    r_total_energy xls == 10 /\ r_total_cost xls == 350 # 100.
Proof. do 6 eexists. repeat split; lazy; reflexivity. Qed.

(** The same scenario with the text ["tesla"]: nothing is retained and the
    totals are 0. *)
Example main_scenario_tesla :
  exists w' xls pdf,
    main (scenario "tesla") empty_world = (Ok tt, w') /\
    report_files w' = [xls; pdf] /\
    r_rows xls = [] /\ r_total_energy xls == 0 /\ r_total_cost xls == 0.
Proof. do 3 eexists. repeat split; lazy; reflexivity. Qed.

(** In a run of [main] the reports are computed on the frame the CSV export
    has rounded: for 10.0149 kWh at 0.35 the CSV file shows a cost of 3.51,
    the rounded product of the values as retrieved, and the reports show
    3.50, the rounded product of the rounded energy 10.01 and the price. *)
Remark main_reports_use_exported_frame :
  exists w' row xls pdf shown,
    main odd_run empty_world = (Ok tt, w') /\
    csv_file w' = Some [row] /\
    energy row == 1001 # 100 /\
    row_cost row == 351 # 100 /\
    report_files w' = [xls; pdf] /\
    r_rows xls = [shown] /\
    rr_energy shown == 1001 # 100 /\
    rr_cost shown == 350 # 100.
Proof. do 5 eexists. repeat split; lazy; reflexivity. Qed.

(** An entry written at noon, checked half an hour later. *)
Lemma is_cache_valid_fresh_witness :
  let c := mkCache (clock_time 12 0) (Some two_sessions) (Some one_price)
                   (Some home) (Some resident) in
  let w := mkWorld [] (Pickled c) None [] in
  cache_file w = Pickled c /\
  fst (is_cache_valid (timestamp c + 59 * 60 * 10 ^ 6) w) = Ok true /\
  fst (is_cache_valid (timestamp c + 61 * 60 * 10 ^ 6) w) = Ok false /\
  fst (is_cache_valid (timestamp c + 60 * 60 * 10 ^ 6) w) = Ok false.
Proof.
  split.
  - reflexivity.
  - apply (proj1 (proj2 (is_cache_valid_fresh (clock_time 12 30)
                           (mkWorld [] (Pickled (mkCache (clock_time 12 0)
                                                         (Some two_sessions)
                                                         (Some one_price)
                                                         (Some home) (Some resident)))
                                    None [])))).
    reflexivity.
Defined.

(** * Further properties *)

(** ** Rounding *)


Lemma rint_Qeq (q q' : Q) : q == q' -> rint q = rint q'.
Proof.
  intros H. unfold rint.
  rewrite (Qfloor_comp _ _ H).
  assert (E : Qcompare (q - inject_Z (Qfloor q')) (1 # 2)
              = Qcompare (q' - inject_Z (Qfloor q')) (1 # 2)).
  { rewrite H. reflexivity. }
  rewrite E. reflexivity.
Qed.

Lemma rint_inject_Z (z : Z) : rint (inject_Z z) = z.
Proof.
  unfold rint. rewrite Qfloor_Z.
  assert (E : Qcompare (inject_Z z - inject_Z z) (1 # 2) = Lt).
  { apply (proj1 (Qlt_alt _ _)). lra. }
  rewrite E. reflexivity.
Qed.

Lemma round_dec_Qeq (d : nat) (q q' : Q) : q == q' -> round_dec d q = round_dec d q'.
Proof.
  intros H. unfold round_dec.
  rewrite (@rint_Qeq (q * inject_Z (10 ^ Z.of_nat d)) (q' * inject_Z (10 ^ Z.of_nat d))).
  - reflexivity.
  - rewrite H. reflexivity.
Qed.


Lemma round_dec_idem (d : nat) (q : Q) :
  round_dec d (round_dec d q) = round_dec d q.
Proof.
  unfold round_dec at 1 3.
  set (s := inject_Z (10 ^ Z.of_nat d)).
  assert (Hs : ~ s == 0).
  { unfold s. intros H. unfold Qeq in H. simpl in H.
    assert (0 < 10 ^ Z.of_nat d)%Z by (apply Z.pow_pos_nonneg; lia). lia. }
  assert (E : round_dec d q * s == inject_Z (rint (q * s))).
  { unfold round_dec. fold s. field. exact Hs. }
  rewrite (rint_Qeq E), rint_inject_Z. reflexivity.
Qed.

(** ** More on the price of a session *)

(** X3: an interval that starts after the session ends, or ends before it
    starts, has no influence: with or without that row, wherever it stands in
    the table, the call returns the same price and prints the same. *)
Theorem calculate_tibber_price_ignores_outside (start_time end_time : Z)
    (df1 df2 : TibberDf) (p : PriceInterval) (w : World) :
  (from p > end_time)%Z \/ (to p < start_time)%Z ->
  calculate_tibber_price start_time end_time (Some (df1 ++ p :: df2)) w =
  calculate_tibber_price start_time end_time (Some (df1 ++ df2)) w.
Proof.
  intros Hout.
  assert (Hp : overlapsb start_time end_time p = false).
  { destruct (overlapsb start_time end_time p) eqn:E; [|reflexivity].
    apply overlapsb_spec in E. unfold overlaps in E. lia. }
  rewrite !calculate_tibber_price_run.
  unfold effectivePrice, diagnostic.
  rewrite !price_during_session_filter. unfold intervalsOverlapping.
  rewrite !filter_app. simpl. rewrite Hp. reflexivity.
Qed.

Lemma calculate_tibber_price_ignores_outside_witness :
  let p := mkPriceInterval (clock_time 12 0) (clock_time 13 0) 0 (99 # 100) 0 in
  ((from p > clock_time 11 30)%Z \/ (to p < clock_time 10 0)%Z) /\
  calculate_tibber_price (clock_time 10 0) (clock_time 11 30)
                         (Some (scenario_prices ++ p :: [])) empty_world =
  calculate_tibber_price (clock_time 10 0) (clock_time 11 30)
                         (Some (scenario_prices ++ [])) empty_world.
Proof.
  assert (H : (from (mkPriceInterval (clock_time 12 0) (clock_time 13 0) 0 (99 # 100) 0)
               > clock_time 11 30)%Z \/
              (to (mkPriceInterval (clock_time 12 0) (clock_time 13 0) 0 (99 # 100) 0)
               < clock_time 10 0)%Z).
  { left. vm_compute. reflexivity. }
  split.
  - exact H.
  - exact (@calculate_tibber_price_ignores_outside (clock_time 10 0) (clock_time 11 30)
             scenario_prices [] _ empty_world H).
Defined.

(** ** More on the session filter *)

Lemma filter_idem {A} (f : A -> bool) (l : list A) :
  filter f (filter f l) = filter f l.
Proof.
  induction l as [|x l IH]; simpl; [reflexivity|].
  destruct (f x) eqn:E; simpl; [rewrite E, IH|]; auto.
Qed.

(** X4: filtering is idempotent: the sessions a filter returns all pass
    the same filter again, in the same order. *)
Theorem filter_sessions_idempotent (rows fd : DataFrame) (id_sub : string)
    (start_date end_date : Z) (w w' : World) :
  filter_sessions rows id_sub start_date end_date w = (Ok fd, w') ->
  filter_sessions fd id_sub start_date end_date w' = (Ok fd, w').
Proof.
  intros H.
  destruct (re_compile id_sub) as [re|] eqn:Hre.
  - rewrite (filter_sessions_run rows id_sub start_date end_date w Hre) in H.
    injection H as <- <-.
    rewrite (filter_sessions_run _ id_sub start_date end_date w Hre).
    rewrite filter_idem. reflexivity.
  - unfold filter_sessions, str_contains, bind in H. rewrite Hre in H.
    discriminate.
Qed.

Lemma filter_sessions_idempotent_witness :
  filter_sessions (volvo_session :: two_sessions) "xc" (clock_time 0 0)
                  (clock_time 24 0) empty_world
  = (Ok [volvo_session], empty_world) /\
  filter_sessions [volvo_session] "xc" (clock_time 0 0) (clock_time 24 0) empty_world
  = (Ok [volvo_session], empty_world).
Proof.
  assert (H : filter_sessions (volvo_session :: two_sessions) "xc" (clock_time 0 0)
                              (clock_time 24 0) empty_world
              = (Ok [volvo_session], empty_world)) by reflexivity.
  split.
  - exact H.
  - exact (@filter_sessions_idempotent (volvo_session :: two_sessions) [volvo_session]
             "xc" (clock_time 0 0) (clock_time 24 0) empty_world empty_world H).
Defined.

Lemma full_stop_lower (c : ascii) : Ascii.eqb c "." = Ascii.eqb (lower c) ".".
Proof. destruct c as [[] [] [] [] [] [] [] []]; reflexivity. Qed.

Lemma is_special_lower (c : ascii) : is_special c = is_special (lower c).
Proof. destruct c as [[] [] [] [] [] [] [] []]; reflexivity. Qed.

Lemma re_compile_case (a b : string) :
  str_lower a = str_lower b -> re_compile a = re_compile b.
Proof.
  revert b. induction a as [|c a IH]; intros [|c' b] H; simpl in H;
    try discriminate; [reflexivity|].
  injection H as Hc Hab. simpl.
  rewrite (full_stop_lower c), (full_stop_lower c'),
          (is_special_lower c), (is_special_lower c'), Hc, (IH b Hab).
  reflexivity.
Qed.

(** X5: for a text made of ordinary characters and full stops, the case of
    the typed text does not matter: two such texts that are equal up to case
    select the same sessions. *)
Theorem filter_sessions_case (rows : DataFrame) (a b : string) (re : list atom)
    (start_date end_date : Z) (w : World) :
  re_compile a = Some re ->
  str_lower a = str_lower b ->
  exists fd,
    filter_sessions rows a start_date end_date w = (Ok fd, w) /\
    filter_sessions rows b start_date end_date w = (Ok fd, w).
Proof.
  intros Hre H.
  exists (filter (keep_row re start_date end_date) rows). split.
  - apply filter_sessions_run. exact Hre.
  - apply filter_sessions_run. rewrite <- (re_compile_case a b H). exact Hre.
Qed.

Lemma filter_sessions_case_witness :
  (re_compile "VOLVO" = Some (lits "VOLVO") /\
   str_lower "VOLVO" = str_lower "volvo") /\
  exists fd,
    filter_sessions (volvo_session :: two_sessions) "VOLVO" (clock_time 0 0)
                    (clock_time 24 0) empty_world = (Ok fd, empty_world) /\
    filter_sessions (volvo_session :: two_sessions) "volvo" (clock_time 0 0)
                    (clock_time 24 0) empty_world = (Ok fd, empty_world).
Proof.
  split.
  - split; reflexivity.
  - exact (@filter_sessions_case (volvo_session :: two_sessions) "VOLVO" "volvo"
             (lits "VOLVO") (clock_time 0 0) (clock_time 24 0) empty_world
             eq_refl eq_refl).
Defined.

(** ** More on filtering and aggregation *)




(** ** Rounding in the totals *)




(** ** The cache file *)

(** X9: what [save_cache] writes, [load_cache] reads back unchanged, as
    long as both frames are there; the entry is fresh until one hour after
    the time of saving; it replaces any earlier entry; nothing else of the
    world changes.  An entry saved without one of the frames cannot be loaded:
    [load_cache] raises [TypeError]. *)
Theorem save_cache_load_cache (saved_at : Z) (wallbox_data : option DataFrame)
    (tibber_df : option TibberDf) (address : option Address) (owner : option Owner)
    (w : World) :
  exists w1,
    save_cache saved_at wallbox_data tibber_df address owner w = (Ok tt, w1) /\
    stdout w1 = stdout w /\ csv_file w1 = csv_file w /\
    report_files w1 = report_files w /\
    (forall now_, is_cache_valid now_ w1 = (Ok (now_ - saved_at <? one_hour)%Z, w1)) /\
    load_cache w1 =
    match wallbox_data, tibber_df with
    | Some _, Some _ => (Ok (wallbox_data, tibber_df, address, owner), w1)
    | _, _ => (Raise TypeError, w1)
    end /\
    (forall t' wd' td' a' o',
        save_cache saved_at wallbox_data tibber_df address owner
                   (snd (save_cache t' wd' td' a' o' w)) = (Ok tt, w1)).
Proof.
  eexists. split; [reflexivity|]. simpl. repeat split.
  - intros now_. unfold is_cache_valid; simpl.
    destruct (now_ - saved_at <? one_hour)%Z; reflexivity.
  - unfold load_cache; simpl.
    destruct wallbox_data, tibber_df; reflexivity.
Qed.

Lemma keeps_load_cache : keeps_cache load_cache.
Proof.
  intros w.
  assert (E : snd (load_cache w) = w).
  { unfold load_cache.
    destruct (cache_file w) as [| |c]; simpl; [reflexivity|reflexivity|].
    destruct (c_wallbox_data c), (c_tibber_data c); reflexivity. }
  rewrite E. split; [reflexivity|]. exists []. symmetry; apply app_nil_r.
Qed.

Lemma main_with_fresh_cache (env : Env) (w : World) :
  is_cache_valid (now env) w = (Ok true, w) ->
  main env w = bind (print UsingCachedData ;;; load_cache) (main_rest env) w.
Proof.
  intros H. unfold main. unfold bind at 1. rewrite H. reflexivity.
Qed.

Lemma main_without_fresh_cache (env : Env) (w : World) :
  is_cache_valid (now env) w = (Ok false, w) ->
  main env w = bind (main_retrieve env) (main_rest env) w.
Proof.
  intros H. unfold main. unfold bind at 1. rewrite H. reflexivity.
Qed.

Lemma keeps_main_rest_named (env : Env)
    (data : option DataFrame * option TibberDf * option Address * option Owner) :
  keeps_cache (main_rest env data).
Proof. apply keeps_main_rest. Qed.

(** X10: while the cache entry is fresh, a run of [main] does not depend on
    the two services at all, whatever they would answer, and it leaves the
    cache file as it is: the entry is not renewed. *)
Theorem main_fresh_cache (env : Env) (w : World) (c : Cache)
    (wapi : ApiOutcome (DataFrame * Address * Owner))
    (tapi : ApiOutcome (TibberDf * Address * Owner)) :
  cache_file w = Pickled c ->
  (now env - timestamp c < one_hour)%Z ->
  main env w =
  main (mkEnv (now env) wapi tapi (input_id_chip_name env)
              (input_start_date env) (input_end_date env)) w /\
  cache_file (snd (main env w)) = Pickled c.
Proof.
  intros Hc Hfresh.
  assert (Hv : is_cache_valid (now env) w = (Ok true, w)).
  { unfold is_cache_valid. rewrite Hc.
    destruct (Z.ltb_spec (now env - timestamp c) one_hour); [reflexivity|lia]. }
  split.
  - rewrite (@main_with_fresh_cache env w Hv).
    rewrite (@main_with_fresh_cache
               (mkEnv (now env) wapi tapi (input_id_chip_name env)
                      (input_start_date env) (input_end_date env)) w Hv).
    reflexivity.
  - rewrite (@main_with_fresh_cache env w Hv).
    assert (K : keeps_cache (bind (print UsingCachedData ;;; load_cache)
                                  (main_rest env))).
    { apply keeps_bind.
      - apply keeps_bind; [apply keeps_print|intros _; apply keeps_load_cache].
      - apply keeps_main_rest_named. }
    destruct (K w) as [Hk _]. rewrite Hk. exact Hc.
Qed.

Lemma main_fresh_cache_witness :
  (cache_file cached_world
   = Pickled (mkCache (clock_time 11 30) (Some two_sessions) (Some one_price)
                      (Some home) (Some resident)) /\
   (now both_up - clock_time 11 30 < one_hour)%Z) /\
  main both_up cached_world =
  main (mkEnv (now both_up) RequestException RequestException
              (input_id_chip_name both_up)
              (input_start_date both_up) (input_end_date both_up)) cached_world /\
  cache_file (snd (main both_up cached_world))
  = Pickled (mkCache (clock_time 11 30) (Some two_sessions) (Some one_price)
                     (Some home) (Some resident)).
Proof.
  assert (H : (now both_up - clock_time 11 30 < one_hour)%Z) by (vm_compute; reflexivity).
  split.
  - split; [reflexivity|exact H].
  - exact (@main_fresh_cache both_up cached_world
             (mkCache (clock_time 11 30) (Some two_sessions) (Some one_price)
                      (Some home) (Some resident))
             RequestException RequestException eq_refl H).
Defined.

(** ** Runs that retrieve *)

(** X11: when no fresh cache entry exists and the Wallbox request fails,
    the run writes neither a CSV file nor a report.  When the Tibber answer
    holds no node the run ends with [KeyError] and leaves the cache file as
    it was; otherwise, the Tibber request failing or not, it ends with
    [AttributeError] and has replaced the cache file, stale or absent, by an
    entry without sessions. *)
Theorem main_wallbox_request_fails (env : Env) (w : World) :
  is_cache_valid (now env) w = (Ok false, w) ->
  wallbox_api env = RequestException ->
  exists w',
    match tibber_api env with
    | Response ([], _, _) =>
        main env w = (Raise KeyError, w') /\
        cache_file w' = cache_file w
    | _ =>
        main env w = (Raise AttributeError, w') /\
        cache_file w' = Pickled (saved_entry env) /\
        c_wallbox_data (saved_entry env) = None
    end /\
    csv_file w' = csv_file w /\ report_files w' = report_files w.
Proof.
  intros Hv Hw.
  rewrite (@main_without_fresh_cache env w Hv).
  unfold main_retrieve, saved_entry. rewrite Hw.
  destruct (tibber_api env) as [[[[|p td] ta] to_]|];
    (eexists; split; [split; [reflexivity|]|]; repeat split).
Qed.

Lemma main_wallbox_request_fails_witness :
  (is_cache_valid (now wallbox_down) stale_world = (Ok false, stale_world) /\
   wallbox_api wallbox_down = RequestException) /\
  exists w',
    (main wallbox_down stale_world = (Raise AttributeError, w') /\
     cache_file w' = Pickled (saved_entry wallbox_down) /\
     c_wallbox_data (saved_entry wallbox_down) = None) /\
    csv_file w' = csv_file stale_world /\ report_files w' = report_files stale_world.
Proof.
  split.
  - split; reflexivity.
  - exact (@main_wallbox_request_fails wallbox_down stale_world eq_refl eq_refl).
Defined.

(** X12: when no fresh cache entry exists, the Wallbox request returns at
    least one session and the Tibber request fails, the run ends with
    [TypeError] in the CSV export and writes neither a CSV file nor a report,
    but it has replaced the cache file by an entry that holds the sessions and
    neither prices, address nor owner. *)
Theorem main_tibber_request_fails (env : Env) (w : World)
    (r : Session) (rows : DataFrame) (wa : Address) (wo : Owner) :
  is_cache_valid (now env) w = (Ok false, w) ->
  wallbox_api env = Response (r :: rows, wa, wo) ->
  tibber_api env = RequestException ->
  exists w',
    main env w = (Raise TypeError, w') /\
    cache_file w' = Pickled (mkCache (now env) (Some (r :: rows)) None None None) /\
    csv_file w' = csv_file w /\ report_files w' = report_files w.
Proof.
  intros Hv Hw Ht.
  rewrite (@main_without_fresh_cache env w Hv).
  unfold main_retrieve. rewrite Hw, Ht.
  eexists. split; [reflexivity|]. repeat split.
Qed.

Lemma main_tibber_request_fails_witness :
  (is_cache_valid (now tibber_down) empty_world = (Ok false, empty_world) /\
   wallbox_api tibber_down
   = Response (volvo_session_a :: [volvo_session_b], home, resident) /\
   tibber_api tibber_down = RequestException) /\
  exists w',
    main tibber_down empty_world = (Raise TypeError, w') /\
    cache_file w'
    = Pickled (mkCache (now tibber_down)
                       (Some (volvo_session_a :: [volvo_session_b])) None None None) /\
    csv_file w' = csv_file empty_world /\ report_files w' = report_files empty_world.
Proof.
  split.
  - repeat split; reflexivity.
  - exact (@main_tibber_request_fails tibber_down empty_world
             volvo_session_a [volvo_session_b] home resident
             eq_refl eq_refl eq_refl).
Defined.

(** ** Runs that succeed *)

Lemma keep_row_exported (re : list atom) (start_date end_date : Z)
    (df : TibberDf) (r : Session) :
  keep_row re start_date end_date (exported df r) = keep_row re start_date end_date r.
Proof. reflexivity. Qed.

Lemma filter_map_exported (re : list atom) (start_date end_date : Z)
    (df : TibberDf) (rows : DataFrame) :
  filter (keep_row re start_date end_date) (map (exported df) rows)
  = map (exported df) (filter (keep_row re start_date end_date) rows).
Proof.
  induction rows as [|r rows IH]; simpl; [reflexivity|].
  rewrite keep_row_exported.
  destruct (keep_row re start_date end_date r); simpl; rewrite IH; reflexivity.
Qed.

Lemma shown_row_exported (d : nat) (df : TibberDf) (r : Session) :
  shown_row d df (exported df r) = run_row d df r.
Proof.
  unfold shown_row, run_row, exported, round_columns, priced. simpl.
  rewrite round_dec_idem. reflexivity.
Qed.

Lemma report_rows_of_run (d : nat) (re : list atom) (start_date end_date : Z)
    (df : TibberDf) (rows : DataFrame) :
  map (shown_row d df)
      (filter (keep_row re start_date end_date) (map (exported df) rows))
  = map (run_row d df) (filter (keep_row re start_date end_date) rows).
Proof.
  rewrite filter_map_exported, map_map.
  apply map_ext. intros r. apply shown_row_exported.
Qed.

Lemma main_rest_run (env : Env) (rows : DataFrame) (df : TibberDf)
    (re : list atom) (a : Address) (o : Owner) (w : World) :
  re_compile (input_id_chip_name env) = Some re ->
  filter (keep_row re (input_start_date env) (input_end_date env)) rows <> [] ->
  main_rest env (Some rows, Some df, Some a, Some o) w
  = (Ok tt,
     after_run df rows (input_id_chip_name env) re
               (input_start_date env) (input_end_date env) a o w).
Proof.
  intros Hre Hne.
  assert (Hrows : rows <> []) by (intros ->; apply Hne; reflexivity).
  assert (Hne' : filter (keep_row re (input_start_date env) (input_end_date env))
                        (map (exported df) rows) <> []).
  { rewrite filter_map_exported. intros H. apply map_eq_nil in H. exact (Hne H). }
  unfold main_rest.
  unfold bind at 1. unfold print at 1. cbn beta iota.
  unfold bind at 1. rewrite (export_table_with_prices_run df _ Hrows). cbv zeta.
  unfold bind at 1. unfold print at 1. cbn beta iota.
  unfold bind at 1.
  rewrite (process_data_with_filters_run (map (exported df) rows) df
             (input_id_chip_name env) (input_start_date env) (input_end_date env)
             a o _ Hre Hne').
  unfold print, after_run, after_reports, emit. simpl.
  f_equal. f_equal.
  rewrite <- !app_assoc. simpl. rewrite <- !app_assoc. reflexivity.
Qed.

Lemma main_retrieve_run (env : Env) (w : World)
    (rows : DataFrame) (wa : Address) (wo : Owner)
    (p : PriceInterval) (df : TibberDf) (ta : Address) (to_ : Owner) :
  wallbox_api env = Response (rows, wa, wo) ->
  tibber_api env = Response (p :: df, ta, to_) ->
  main_retrieve env w
  = (Ok (Some rows, Some (p :: df), Some ta, Some to_),
     mkWorld (stdout w ++ [FetchingNewData])
             (Pickled (mkCache (now env) (Some rows) (Some (p :: df))
                               (Some ta) (Some to_)))
             (csv_file w) (report_files w)).
Proof.
  intros Hw Ht. unfold main_retrieve. rewrite Hw, Ht. reflexivity.
Qed.

(** X13: a run without a fresh cache entry in which both requests succeed,
    at least one session and at least one price interval are retrieved and
    the filter retains at least one session, returns normally.  It saves the
    data as retrieved, with the address and owner of the Tibber answer; it
    exports every session to the CSV file; it writes the two reports, both
    with the address and owner of the Tibber answer, not those of the Wallbox
    answer.  A report has one line per retained session; the line shows the
    energy rounded to 2 decimals and, as cost, the rounded product of that
    rounded energy and the price. *)
Theorem main_retrieves_and_reports (env : Env) (w : World)
    (r : Session) (rows : DataFrame) (wa : Address) (wo : Owner)
    (p : PriceInterval) (df : TibberDf) (ta : Address) (to_ : Owner)
    (r' : Session) (fd : DataFrame) :
  is_cache_valid (now env) w = (Ok false, w) ->
  wallbox_api env = Response (r :: rows, wa, wo) ->
  tibber_api env = Response (p :: df, ta, to_) ->
  filter_sessions (r :: rows) (input_id_chip_name env)
                  (input_start_date env) (input_end_date env) w
  = (Ok (r' :: fd), w) ->
  exists w' xls pdf,
    main env w = (Ok tt, w') /\
    cache_file w'
    = Pickled (mkCache (now env) (Some (r :: rows)) (Some (p :: df))
                       (Some ta) (Some to_)) /\
    csv_file w' = Some (map (exported (p :: df)) (r :: rows)) /\
    report_files w' = report_files w ++ [xls; pdf] /\
    r_kind xls = Excel /\ r_kind pdf = Pdf /\
    r_address xls = ta /\ r_owner xls = to_ /\
    r_address pdf = ta /\ r_owner pdf = to_ /\
    r_rows xls = map (run_row 2 (p :: df)) (r' :: fd) /\
    r_rows pdf = map (run_row 4 (p :: df)) (r' :: fd).
Proof.
  intros Hv Hw Ht Hf.
  destruct (@filter_sessions_inv _ _ _ _ _ _ _ Hf) as [re [Hre [Hfd _]]].
  assert (Hne : filter (keep_row re (input_start_date env) (input_end_date env))
                       (r :: rows) <> [])
    by (rewrite <- Hfd; discriminate).
  rewrite (@main_without_fresh_cache env w Hv).
  unfold bind at 1.
  rewrite (@main_retrieve_run env w (r :: rows) wa wo p df ta to_ Hw Ht).
  rewrite (@main_rest_run env (r :: rows) (p :: df) re ta to_ _ Hre Hne).
  do 3 eexists. split; [reflexivity|].
  unfold after_run, after_reports, emit.
  cbn [cache_file csv_file report_files stdout r_kind r_address r_owner r_rows].
  rewrite !report_rows_of_run, <- Hfd.
  repeat split.
Qed.

Lemma main_retrieves_and_reports_witness :
  (is_cache_valid (now both_up) stale_world = (Ok false, stale_world) /\
   wallbox_api both_up
   = Response (volvo_session_a :: [volvo_session_b], elsewhere, someone_else) /\
   tibber_api both_up = Response (one_price, home, resident) /\
   filter_sessions (volvo_session_a :: [volvo_session_b]) (input_id_chip_name both_up)
                   (input_start_date both_up) (input_end_date both_up) stale_world
   = (Ok (volvo_session_a :: [volvo_session_b]), stale_world)) /\
  exists w' xls pdf,
    main both_up stale_world = (Ok tt, w') /\
    cache_file w'
    = Pickled (mkCache (now both_up) (Some (volvo_session_a :: [volvo_session_b]))
                       (Some one_price) (Some home) (Some resident)) /\
    csv_file w' = Some (map (exported one_price) (volvo_session_a :: [volvo_session_b])) /\
    report_files w' = report_files stale_world ++ [xls; pdf] /\
    r_kind xls = Excel /\ r_kind pdf = Pdf /\
    r_address xls = home /\ r_owner xls = resident /\
    r_address pdf = home /\ r_owner pdf = resident /\
    r_rows xls = map (run_row 2 one_price) (volvo_session_a :: [volvo_session_b]) /\
    r_rows pdf = map (run_row 4 one_price) (volvo_session_a :: [volvo_session_b]).
Proof.
  split.
  - repeat split; reflexivity.
  - exact (@main_retrieves_and_reports both_up stale_world
             volvo_session_a [volvo_session_b] elsewhere someone_else
             (mkPriceInterval (clock_time 10 0) (clock_time 11 0) 0 (2996 # 10000) 0)
             [] home resident volvo_session_a [volvo_session_b]
             eq_refl eq_refl eq_refl eq_refl).
Defined.

Lemma load_cache_complete (w : World) (t : Z) (rows : DataFrame) (df : TibberDf)
    (a : option Address) (o : option Owner) :
  cache_file w = Pickled (mkCache t (Some rows) (Some df) a o) ->
  (print UsingCachedData ;;; load_cache) w
  = (Ok (Some rows, Some df, a, o), emit [UsingCachedData] w).
Proof.
  intros Hc. unfold bind, print, load_cache, emit. simpl. rewrite Hc. reflexivity.
Qed.

(** X14: a run within the hour after a run that retrieved at least one
    session and one price interval and succeeded, with the same three answers
    typed, takes its data from the cache file and writes the same CSV content
    and the same two reports again, whatever the two services would answer;
    the cache file stays as the first run left it. *)
Theorem main_repeats_from_cache (env1 env2 : Env) (w : World)
    (r : Session) (rows : DataFrame) (wa : Address) (wo : Owner)
    (p : PriceInterval) (df : TibberDf) (ta : Address) (to_ : Owner)
    (r' : Session) (fd : DataFrame) :
  is_cache_valid (now env1) w = (Ok false, w) ->
  wallbox_api env1 = Response (r :: rows, wa, wo) ->
  tibber_api env1 = Response (p :: df, ta, to_) ->
  filter_sessions (r :: rows) (input_id_chip_name env1)
                  (input_start_date env1) (input_end_date env1) w
  = (Ok (r' :: fd), w) ->
  input_id_chip_name env2 = input_id_chip_name env1 ->
  input_start_date env2 = input_start_date env1 ->
  input_end_date env2 = input_end_date env1 ->
  (now env2 - now env1 < one_hour)%Z ->
  exists w1 w2 xls pdf,
    main env1 w = (Ok tt, w1) /\
    main env2 w1 = (Ok tt, w2) /\
    report_files w1 = report_files w ++ [xls; pdf] /\
    report_files w2 = report_files w1 ++ [xls; pdf] /\
    csv_file w2 = csv_file w1 /\
    cache_file w2 = cache_file w1.
Proof.
  intros Hv Hw Ht Hf Hid Hsd Hed Hfresh.
  destruct (@filter_sessions_inv _ _ _ _ _ _ _ Hf) as [re [Hre [Hfd _]]].
  assert (Hne : filter (keep_row re (input_start_date env1) (input_end_date env1))
                       (r :: rows) <> [])
    by (rewrite <- Hfd; discriminate).
  rewrite (@main_without_fresh_cache env1 w Hv).
  unfold bind at 1.
  rewrite (@main_retrieve_run env1 w (r :: rows) wa wo p df ta to_ Hw Ht).
  rewrite (@main_rest_run env1 (r :: rows) (p :: df) re ta to_ _ Hre Hne).
  eexists. eexists.
  match goal with
  | |- context [(Ok tt, ?W) = (Ok tt, _)] => set (w1 := W)
  end.
  assert (Hc1 : cache_file w1
                = Pickled (mkCache (now env1) (Some (r :: rows)) (Some (p :: df))
                                   (Some ta) (Some to_)))
    by reflexivity.
  assert (Hv2 : is_cache_valid (now env2) w1 = (Ok true, w1)).
  { unfold is_cache_valid. rewrite Hc1. simpl timestamp.
    destruct (Z.ltb_spec (now env2 - now env1) one_hour); [reflexivity|lia]. }
  rewrite (@main_with_fresh_cache env2 w1 Hv2).
  unfold bind at 1. rewrite (load_cache_complete w1 Hc1).
  assert (Hre2 : re_compile (input_id_chip_name env2) = Some re)
    by (rewrite Hid; exact Hre).
  assert (Hne2 : filter (keep_row re (input_start_date env2) (input_end_date env2))
                        (r :: rows) <> [])
    by (rewrite Hsd, Hed; exact Hne).
  rewrite (@main_rest_run env2 (r :: rows) (p :: df) re ta to_ _ Hre2 Hne2).
  rewrite Hid, Hsd, Hed.
  do 2 eexists. split; [reflexivity|]. split; [reflexivity|].
  repeat split; reflexivity.
Qed.

Lemma main_repeats_from_cache_witness :
  (is_cache_valid (now both_up) stale_world = (Ok false, stale_world) /\
   wallbox_api both_up
   = Response (volvo_session_a :: [volvo_session_b], elsewhere, someone_else) /\
   tibber_api both_up = Response (one_price, home, resident) /\
   filter_sessions (volvo_session_a :: [volvo_session_b]) (input_id_chip_name both_up)
                   (input_start_date both_up) (input_end_date both_up) stale_world
   = (Ok (volvo_session_a :: [volvo_session_b]), stale_world) /\
   input_id_chip_name both_up_later = input_id_chip_name both_up /\
   input_start_date both_up_later = input_start_date both_up /\
   input_end_date both_up_later = input_end_date both_up /\
   (now both_up_later - now both_up < one_hour)%Z) /\
  exists w1 w2 xls pdf,
    main both_up stale_world = (Ok tt, w1) /\
    main both_up_later w1 = (Ok tt, w2) /\
    report_files w1 = report_files stale_world ++ [xls; pdf] /\
    report_files w2 = report_files w1 ++ [xls; pdf] /\
    csv_file w2 = csv_file w1 /\
    cache_file w2 = cache_file w1.
Proof.
  assert (H : (now both_up_later - now both_up < one_hour)%Z)
    by (vm_compute; reflexivity).
  split.
  - repeat split; try reflexivity; exact H.
  - exact (@main_repeats_from_cache both_up both_up_later stale_world
             volvo_session_a [volvo_session_b] elsewhere someone_else
             (mkPriceInterval (clock_time 10 0) (clock_time 11 0) 0 (2996 # 10000) 0)
             [] home resident volvo_session_a [volvo_session_b]
             eq_refl eq_refl eq_refl eq_refl eq_refl eq_refl eq_refl H).
Defined.

(** ** Paging *)

Lemma tibber_pages_serves (server : TibberServer) (earlier : list Page) (last : Page) :
  forall (cursor : option string) (all_data : list PriceInterval) (fuel : nat),
    serves server cursor earlier last ->
    (List.length earlier < fuel)%nat ->
    tibber_pages fuel server cursor all_data
    = Some (Response (all_data ++ all_nodes earlier ++ nodes last, last)).
Proof.
  induction earlier as [|p earlier IH]; intros cursor all_data fuel Hs Hf;
    (destruct fuel as [|fuel]; [simpl in Hf; lia|]); simpl in Hs |- *.
  - destruct Hs as [-> ->]. reflexivity.
  - destruct Hs as [-> [-> Hs]].
    rewrite (IH _ (all_data ++ nodes p) fuel Hs) by (simpl in Hf; lia).
    unfold all_nodes. simpl. rewrite <- !app_assoc. reflexivity.
Qed.

Lemma tibber_pages_breaks (server : TibberServer) (earlier : list Page) :
  forall (cursor : option string) (all_data : list PriceInterval) (fuel : nat),
    breaks_after server cursor earlier ->
    (List.length earlier < fuel)%nat ->
    tibber_pages fuel server cursor all_data = Some RequestException.
Proof.
  induction earlier as [|p earlier IH]; intros cursor all_data fuel Hs Hf;
    (destruct fuel as [|fuel]; [simpl in Hf; lia|]); simpl in Hs |- *.
  - rewrite Hs. reflexivity.
  - destruct Hs as [-> [-> Hs]].
    apply IH; [exact Hs|simpl in Hf; lia].
Qed.

(** X15: when the service answers a chain of pages, the last of which
    announces no next page, and at least one node comes back,
    [fetch_tibber_data] returns the nodes of all pages in the order received,
    with the address and owner of the last page, or the ["Unknown"]
    placeholders where the last page lacks them; to its caller this is the
    single successful answer that [main] is modelled with. *)
Theorem fetch_tibber_data_pages (server : TibberServer) (earlier : list Page)
    (last : Page) (fuel : nat) :
  serves server None earlier last ->
  (List.length earlier < fuel)%nat ->
  all_nodes earlier ++ nodes last <> [] ->
  exists m,
    fetch_tibber_data_paged fuel server = Some m /\
    m = fetch_tibber_data
          (Response (all_nodes earlier ++ nodes last,
                     address_or_unknown (home_address last),
                     owner_or_unknown (home_owner last))) /\
    forall w,
      m w = (Ok (Some (all_nodes earlier ++ nodes last),
                 Some (address_or_unknown (home_address last)),
                 Some (owner_or_unknown (home_owner last))), w).
Proof.
  intros Hs Hf Hne.
  unfold fetch_tibber_data_paged.
  rewrite (tibber_pages_serves server earlier last None [] Hs Hf). simpl app.
  destruct (all_nodes earlier ++ nodes last) as [|n ns] eqn:E; [congruence|].
  eexists. split; [reflexivity|]. split; reflexivity.
Qed.

Lemma fetch_tibber_data_pages_witness :
  (serves two_page_server None [page_one] page_two /\
   (List.length [page_one] < 5)%nat /\
   all_nodes [page_one] ++ nodes page_two <> []) /\
  exists m,
    fetch_tibber_data_paged 5 two_page_server = Some m /\
    m = fetch_tibber_data
          (Response (all_nodes [page_one] ++ nodes page_two,
                     address_or_unknown (home_address page_two),
                     owner_or_unknown (home_owner page_two))) /\
    forall w,
      m w = (Ok (Some (all_nodes [page_one] ++ nodes page_two),
                 Some (address_or_unknown (home_address page_two)),
                 Some (owner_or_unknown (home_owner page_two))), w).
Proof.
  assert (H1 : serves two_page_server None [page_one] page_two).
  { simpl. repeat split. }
  assert (H2 : (List.length [page_one] < 5)%nat) by (simpl; lia).
  assert (H3 : all_nodes [page_one] ++ nodes page_two <> []) by discriminate.
  split.
  - repeat split; assumption.
  - exact (@fetch_tibber_data_pages two_page_server [page_one] page_two 5 H1 H2 H3).
Defined.

(** X16: when a request fails, after any number of pages received,
    [fetch_tibber_data] logs one error and returns three [None]: the nodes
    received before the failure are dropped. *)
Theorem fetch_tibber_data_request_fails (server : TibberServer) (earlier : list Page)
    (fuel : nat) :
  breaks_after server None earlier ->
  (List.length earlier < fuel)%nat ->
  exists m,
    fetch_tibber_data_paged fuel server = Some m /\
    m = fetch_tibber_data RequestException /\
    forall w, m w = (Ok (None, None, None), emit [LogError Tibber] w).
Proof.
  intros Hs Hf.
  unfold fetch_tibber_data_paged.
  rewrite (tibber_pages_breaks server earlier None [] Hs Hf).
  eexists. split; [reflexivity|]. split; reflexivity.
Qed.

Lemma fetch_tibber_data_request_fails_witness :
  (breaks_after failing_server None [page_one] /\ (List.length [page_one] < 5)%nat) /\
  exists m,
    fetch_tibber_data_paged 5 failing_server = Some m /\
    m = fetch_tibber_data RequestException /\
    forall w, m w = (Ok (None, None, None), emit [LogError Tibber] w).
Proof.
  assert (H1 : breaks_after failing_server None [page_one]).
  { simpl. repeat split. }
  assert (H2 : (List.length [page_one] < 5)%nat) by (simpl; lia).
  split.
  - split; assumption.
  - exact (@fetch_tibber_data_request_fails failing_server [page_one] 5 H1 H2).
Defined.

(** X17: when the service answers but no page holds a node,
    [fetch_tibber_data] raises [KeyError]: the frame has no ['from'] column,
    and the [except] clause catches request errors only. *)
Theorem fetch_tibber_data_no_node (server : TibberServer) (earlier : list Page)
    (last : Page) (fuel : nat) :
  serves server None earlier last ->
  (List.length earlier < fuel)%nat ->
  all_nodes earlier ++ nodes last = [] ->
  exists m,
    fetch_tibber_data_paged fuel server = Some m /\
    forall w, m w = (Raise KeyError, w).
Proof.
  intros Hs Hf He.
  unfold fetch_tibber_data_paged.
  rewrite (tibber_pages_serves server earlier last None [] Hs Hf). simpl app.
  rewrite He.
  eexists. split; reflexivity.
Qed.

Lemma fetch_tibber_data_no_node_witness :
  let last := mkPage [] false None (Some home) (Some resident) in
  (serves empty_server None [] last /\ (List.length (@nil Page) < 1)%nat /\
   all_nodes [] ++ nodes last = []) /\
  exists m,
    fetch_tibber_data_paged 1 empty_server = Some m /\
    forall w, m w = (Raise KeyError, w).
Proof.
  assert (H1 : serves empty_server None []
                      (mkPage [] false None (Some home) (Some resident))).
  { simpl. split; reflexivity. }
  assert (H2 : (List.length (@nil Page) < 1)%nat) by (simpl; lia).
  split.
  - repeat split; assumption.
  - exact (@fetch_tibber_data_no_node empty_server []
             (mkPage [] false None (Some home) (Some resident)) 1 H1 H2 eq_refl).
Defined.

Lemma tibber_pages_endless (server : TibberServer) :
  (forall cursor, exists p, server cursor = Response p /\ hasNextPage p = true) ->
  forall fuel cursor all_data, tibber_pages fuel server cursor all_data = None.
Proof.
  intros H. induction fuel as [|fuel IH]; intros cursor all_data; simpl.
  - reflexivity.
  - destruct (H cursor) as [p [-> ->]]. apply IH.
Qed.

(** X18: the loop has no bound of its own: against a service whose every
    answer announces a next page, [fetch_tibber_data] returns after no number
    of requests. *)
Theorem fetch_tibber_data_endless (server : TibberServer) :
  (forall cursor, exists p, server cursor = Response p /\ hasNextPage p = true) ->
  forall fuel, fetch_tibber_data_paged fuel server = None.
Proof.
  intros H fuel. unfold fetch_tibber_data_paged.
  rewrite (tibber_pages_endless server H). reflexivity.
Qed.

Lemma fetch_tibber_data_endless_witness :
  (forall cursor, exists p,
      endless_server cursor = Response p /\ hasNextPage p = true) /\
  forall fuel, fetch_tibber_data_paged fuel endless_server = None.
Proof.
  assert (H : forall cursor, exists p,
                endless_server cursor = Response p /\ hasNextPage p = true).
  { intros cursor. exists page_one. split; reflexivity. }
  split.
  - exact H.
  - exact (@fetch_tibber_data_endless endless_server H).
Defined.

(** ** Composition of filters *)

Lemma filter_narrow {A} (f g : A -> bool) (l : list A) :
  (forall x, f x = true -> g x = true) ->
  filter f (filter g l) = filter f l.
Proof.
  intros H. induction l as [|x l IH]; simpl; [reflexivity|].
  destruct (g x) eqn:Eg; simpl.
  - rewrite IH. reflexivity.
  - destruct (f x) eqn:Ef; [|exact IH].
    rewrite (H x Ef) in Eg. discriminate.
Qed.

(** X19: narrowing the date range of an earlier filter result gives what the
    narrower range gives on the original sessions: if a wide range retains
    [wide] and a range inside it retains [narrow], then filtering [wide] with
    the inner range retains [narrow] again. *)
Theorem filter_sessions_narrow (rows wide narrow : DataFrame) (id_sub : string)
    (start_date end_date start_date' end_date' : Z) (w : World) :
  (start_date' <= start_date)%Z -> (end_date <= end_date')%Z ->
  filter_sessions rows id_sub start_date' end_date' w = (Ok wide, w) ->
  filter_sessions rows id_sub start_date end_date w = (Ok narrow, w) ->
  filter_sessions wide id_sub start_date end_date w = (Ok narrow, w).
Proof.
  intros Hs He Hwide Hnarrow.
  destruct (re_compile id_sub) as [re|] eqn:Hre.
  - rewrite (filter_sessions_run rows id_sub start_date' end_date' w Hre) in Hwide.
    rewrite (filter_sessions_run rows id_sub start_date end_date w Hre) in Hnarrow.
    injection Hwide as <-. injection Hnarrow as <-.
    rewrite (filter_sessions_run _ id_sub start_date end_date w Hre).
    rewrite filter_narrow; [reflexivity|].
    intros r. unfold keep_row. rewrite !andb_true_iff, !Z.geb_le, !Z.leb_le.
    intros [[H1 H2] H3]. repeat split; [exact H1|lia|lia].
  - unfold filter_sessions, str_contains, bind in Hwide. rewrite Hre in Hwide.
    discriminate.
Qed.

Lemma filter_sessions_narrow_witness :
  ((clock_time 0 0 <= clock_time 10 0)%Z /\ (clock_time 10 30 <= clock_time 24 0)%Z /\
   filter_sessions (volvo_session :: two_sessions) "volvo" (clock_time 0 0)
                   (clock_time 24 0) empty_world
   = (Ok (volvo_session :: two_sessions), empty_world) /\
   filter_sessions (volvo_session :: two_sessions) "volvo" (clock_time 10 0)
                   (clock_time 10 30) empty_world
   = (Ok [volvo_session_a], empty_world)) /\
  filter_sessions (volvo_session :: two_sessions) "volvo" (clock_time 10 0)
                  (clock_time 10 30) empty_world
  = (Ok [volvo_session_a], empty_world).
Proof.
  assert (H1 : (clock_time 0 0 <= clock_time 10 0)%Z) by (vm_compute; discriminate).
  assert (H2 : (clock_time 10 30 <= clock_time 24 0)%Z) by (vm_compute; discriminate).
  split.
  - repeat split; try assumption; reflexivity.
  - exact (@filter_sessions_narrow (volvo_session :: two_sessions)
             (volvo_session :: two_sessions) [volvo_session_a] "volvo"
             (clock_time 10 0) (clock_time 10 30) (clock_time 0 0) (clock_time 24 0)
             empty_world H1 H2 eq_refl eq_refl).
Defined.

(** ** A frame without sessions *)

(** X22: on a frame without sessions the CSV export raises [ValueError] at
    the first assignment, with a price table as without one: nothing is
    printed and no CSV file is written. *)
Theorem export_table_with_prices_no_session (tibber_df : option TibberDf) (w : World) :
  export_table_with_prices (Some []) tibber_df w = (Raise ValueError, w).
Proof. reflexivity. Qed.

(** X23: a run without a fresh cache entry in which the Wallbox service
    reports no session and the Tibber service at least one price interval
    saves what it retrieved and then ends with [ValueError] in the CSV
    export: no CSV file and no report is written. *)
Theorem main_no_session (env : Env) (w : World) (wa : Address) (wo : Owner)
    (p : PriceInterval) (df : TibberDf) (ta : Address) (to_ : Owner) :
  is_cache_valid (now env) w = (Ok false, w) ->
  wallbox_api env = Response ([], wa, wo) ->
  tibber_api env = Response (p :: df, ta, to_) ->
  main env w
  = (Raise ValueError,
     mkWorld (stdout w ++ [FetchingNewData; ExportingCsv])
             (Pickled (mkCache (now env) (Some []) (Some (p :: df))
                               (Some ta) (Some to_)))
             (csv_file w) (report_files w)).
Proof.
  intros Hv Hw Ht.
  rewrite (@main_without_fresh_cache env w Hv).
  unfold bind at 1.
  rewrite (@main_retrieve_run env w [] wa wo p df ta to_ Hw Ht).
  unfold main_rest.
  unfold bind at 1. unfold print at 1. cbn beta iota.
  unfold bind at 1. rewrite export_table_with_prices_no_session.
  cbn [stdout cache_file csv_file report_files].
  rewrite <- app_assoc. reflexivity.
Qed.

Lemma main_no_session_witness :
  (is_cache_valid (now no_session_up) stale_world = (Ok false, stale_world) /\
   wallbox_api no_session_up = Response ([], elsewhere, someone_else) /\
   tibber_api no_session_up = Response (one_price, home, resident)) /\
  main no_session_up stale_world
  = (Raise ValueError,
     mkWorld (stdout stale_world ++ [FetchingNewData; ExportingCsv])
             (Pickled (mkCache (now no_session_up) (Some []) (Some one_price)
                               (Some home) (Some resident)))
             (csv_file stale_world) (report_files stale_world)).
Proof.
  split.
  - repeat split; reflexivity.
  - exact (@main_no_session no_session_up stale_world elsewhere someone_else
             (mkPriceInterval (clock_time 10 0) (clock_time 11 0) 0 (2996 # 10000) 0)
             [] home resident eq_refl eq_refl eq_refl).
Defined.
